(** * Social-media reply service: a shallow embedding and its properties

    The development follows the four source files of the service:
    [models.py] (request, response and stored-record shapes),
    [llm_handler.py] (prompt construction, generation, post-processing),
    [database.py] (best-effort insert) and [main.py] (the HTTP handlers).

    Python text is a sequence of Unicode code points, so [str] is a list of
    code points; the built-in string operations the handlers use
    ([strip], [startswith], [endswith], slicing) are written out.  Code that
    performs I/O runs in a small monad that records the calls made to the
    two external collaborators and either returns a value or raises. *)

From Stdlib Require Import List String Ascii NArith ZArith Bool Lia DecimalString.
From ExtLib Require Import Structures.Monad Structures.MonadExc.
Import ListNotations.
Import MonadNotation.

Local Open Scope list_scope.
Local Open Scope monad_scope.

(* ===================================================================== *)
(** * Python built-ins used by the service *)
(* ===================================================================== *)

Module PyStr.

(** A Python [str]: its code points, in order. *)
Definition codepoint := N.
Definition str := list codepoint.

(** An ASCII literal of the source as a [str]. *)
Definition lit (s : string) : str :=
  map N_of_ascii (list_ascii_of_string s).

(** The two straight quote characters tested by the post-processing. *)
Definition dquote : codepoint := 34%N.
Definition squote : codepoint := 39%N.

(** [c.isspace()] for one code point: the Unicode white-space table that
    [str.strip()] without argument consults. *)
Definition isspace (c : codepoint) : bool :=
  ((0x09 <=? c) && (c <=? 0x0D) || (0x1C <=? c) && (c <=? 0x1F)
   || (c =? 0x20) || (c =? 0x85) || (c =? 0xA0) || (c =? 0x1680)
   || (0x2000 <=? c) && (c <=? 0x200A)
   || (c =? 0x2028) || (c =? 0x2029) || (c =? 0x202F) || (c =? 0x205F)
   || (c =? 0x3000))%N.

Fixpoint lstrip (s : str) : str :=
  match s with
  | [] => []
  | c :: s' => if isspace c then lstrip s' else s
  end.

Definition rstrip (s : str) : str := rev (lstrip (rev s)).

(** [s.strip()] *)
Definition strip (s : str) : str := rstrip (lstrip s).

(** [s.startswith(p)] *)
Fixpoint startswith (s p : str) {struct p} : bool :=
  match p, s with
  | [], _ => true
  | _ :: _, [] => false
  | c :: p', d :: s' => (c =? d)%N && startswith s' p'
  end.

(** [s.endswith(p)] *)
Definition endswith (s p : str) : bool := startswith (rev s) (rev p).

(** Index normalisation of a slice bound against a sequence of length [n]:
    a negative bound counts from the end, and every bound is clamped into
    [0, n]. *)
Definition clamp_index (n i : Z) : Z :=
  if (i <? 0)%Z then Z.max (i + n) 0 else Z.min i n.

(** [s[start:stop]] *)
Definition slice {A} (s : list A) (start stop : Z) : list A :=
  let n := Z.of_nat (List.length s) in
  let a := clamp_index n start in
  let b := clamp_index n stop in
  firstn (Z.to_nat (b - a)) (skipn (Z.to_nat a) s).

(** [s1 == s2] on text. *)
Fixpoint str_eqb (s1 s2 : str) : bool :=
  match s1, s2 with
  | [], [] => true
  | c :: s1', d :: s2' => (c =? d)%N && str_eqb s1' s2'
  | _, _ => false
  end.

(** [str(n)] for an integer. *)
Definition str_of_Z (z : Z) : str := lit (NilZero.string_of_int (Z.to_int z)).

End PyStr.
Import PyStr.

(* ===================================================================== *)
(** * Values exchanged with the outside: JSON and dictionaries *)
(* ===================================================================== *)

(** A number the decoder read as a [float]: a finite one, known by the
    text that denotes it, or one of the three literals [NaN], [Infinity]
    and [-Infinity], which the decoder accepts. *)
Inductive pyfloat : Type :=
| finite_float (repr : str)
| nan
| infinity
| neg_infinity.

(** A decoded JSON value.  An object is the dictionary the decoder built,
    as its list of items; a number is an integer or a [float]. *)
#[warnings="-register-all"] Inductive json : Type :=
| JNull
| JBool (b : bool)
| JNumber (z : Z)
| JFloat (f : pyfloat)
| JString (s : str)
| JArray (items : list json)
| JObject (items : list (str * json)).

(** A code point [s.encode("utf-8")] accepts: any but the surrogates. *)
Definition utf8_encodable (c : codepoint) : bool :=
  ((c <? 0xD800) || (0xDFFF <? c) && (c <=? 0x10FFFF))%N.

(** [s.encode("utf-8")] returns rather than raising. *)
Definition str_encodable (s : str) : bool := forallb utf8_encodable s.

(** A response body can be rendered, that is
    [json.dumps(content, ensure_ascii=False, allow_nan=False).encode("utf-8")]
    returns rather than raising: no text in it, key or value, holds a
    surrogate, and no number in it is [NaN] or infinite. *)
Fixpoint json_encodable (j : json) : bool :=
  match j with
  | JNull | JBool _ | JNumber _ => true
  | JFloat (finite_float _) => true
  | JFloat _ => false
  | JString s => str_encodable s
  | JArray items => forallb json_encodable items
  | JObject items =>
      forallb (fun kv : str * json =>
                 let (k, v) := kv in str_encodable k && json_encodable v)
              items
  end.

Module Dict.
Section Dict.
Context {V : Type}.

(** A [dict] with text keys, as its items in insertion order. *)
Definition t := list (str * V).

(** [d.get(k)] *)
Fixpoint get (d : t) (k : str) : option V :=
  match d with
  | [] => None
  | (k', v) :: d' => if str_eqb k' k then Some v else get d' k
  end.

(** [d.get(k, default)] *)
Definition get_default (d : t) (k : str) (default : V) : V :=
  match get d k with Some v => v | None => default end.

(** [k in d] *)
Definition contains (d : t) (k : str) : bool :=
  match get d k with Some _ => true | None => false end.

(** [del d[k]] *)
Definition del (d : t) (k : str) : t :=
  filter (fun kv => negb (str_eqb (fst kv) k)) d.
End Dict.
Arguments t : clear implicits.
End Dict.

(* ===================================================================== *)
(** * models.py *)
(* ===================================================================== *)

(** An instant, as [datetime.utcnow()] reads it. *)
Definition datetime := Z.

(** One entry of the error list of a rejected request body: where the
    error is and which kind it is. *)
Record ValidationError := { loc : list str; type : str }.

Module PostData.
Record t := { platform : str; post_text : str }.

(** A required field annotated [str]: the key must be present and its
    value must be text.  No length constraint is declared on the field. *)
Definition validate_str_field (items : Dict.t json) (name : str)
  : ValidationError + str :=
  match Dict.get items name with
  | None => inl {| loc := [lit "body"; name]; type := lit "missing" |}
  | Some (JString s) => inr s
  | Some _ => inl {| loc := [lit "body"; name]; type := lit "string_type" |}
  end.

(** Validation of a request body against the model: every field is
    checked and the errors of all fields are reported together. *)
Definition model_validate (body : json) : list ValidationError + t :=
  match body with
  | JObject items =>
      match validate_str_field items (lit "platform"),
            validate_str_field items (lit "post_text") with
      | inr p, inr x => inr {| platform := p; post_text := x |}
      | inl e1, inr _ => inl [e1]
      | inr _, inl e2 => inl [e2]
      | inl e1, inl e2 => inl [e1; e2]
      end
  | _ => inl [{| loc := [lit "body"]; type := lit "model_attributes_type" |}]
  end.
End PostData.

Module ReplyResponse.
Record t := { platform : str; post_text : str; generated_reply : str }.

(** The response body the framework serialises for this model. *)
Definition to_json (r : t) : json :=
  JObject [ (lit "platform", JString (platform r));
            (lit "post_text", JString (post_text r));
            (lit "generated_reply", JString (generated_reply r)) ].
End ReplyResponse.

(** A value held by a dumped model. *)
Inductive value : Type :=
| VNone
| VStr (s : str)
| VDatetime (d : datetime).

Definition is_None (v : value) : bool :=
  match v with VNone => true | _ => false end.

Module StoredReply.
(** [StoredReply(ReplyResponse)]: the inherited fields, the creation time
    and the optional identifier, whose alias is [_id]. *)
Record t := {
  platform : str;
  post_text : str;
  generated_reply : str;
  timestamp : datetime;
  id : option str
}.

(** [StoredReply(platform=..., post_text=..., generated_reply=...)]: the
    time stamp comes from the default factory, the identifier defaults to
    [None]. *)
Definition make (now : datetime) (platform post_text generated_reply : str) : t :=
  {| platform := platform; post_text := post_text;
     generated_reply := generated_reply; timestamp := now; id := None |}.

(** [r.model_dump(by_alias=..., exclude_none=...)] *)
Definition model_dump (by_alias exclude_none : bool) (r : t) : Dict.t value :=
  let fields :=
    [ (lit "platform", VStr (platform r));
      (lit "post_text", VStr (post_text r));
      (lit "generated_reply", VStr (generated_reply r));
      (lit "timestamp", VDatetime (timestamp r));
      (if by_alias then lit "_id" else lit "id",
       match id r with Some i => VStr i | None => VNone end) ] in
  if exclude_none then filter (fun kv => negb (is_None (snd kv))) fields
  else fields.
End StoredReply.

Module ErrorResponse.
Record t := { detail : str }.
End ErrorResponse.

(* ===================================================================== *)
(** * Exceptions, collaborators and the effect monad *)
(* ===================================================================== *)

(** The exceptions a handler can meet, all of them instances of Python's
    [Exception] class: the framework's [HTTPException], and any other one,
    known by the text [str(e)] gives. *)
Inductive exception : Type :=
| HTTPException (status_code : Z) (detail : str)
| Exception (message : str).

(** [str(e)].  For [HTTPException] this is the framework's
    ["{status_code}: {detail}"]. *)
Definition str_of_exception (e : exception) : str :=
  match e with
  | HTTPException c d => str_of_Z c ++ lit ": " ++ d
  | Exception m => m
  end.

Definition HTTP_200_OK : Z := 200.
Definition HTTP_422_UNPROCESSABLE_ENTITY : Z := 422.
Definition HTTP_500_INTERNAL_SERVER_ERROR : Z := 500.
Definition HTTP_503_SERVICE_UNAVAILABLE : Z := 503.

(** What a call yields: a value, or an exception. *)
Inductive outcome (A : Type) : Type :=
| Returns (a : A)
| Raises (e : exception).
Arguments Returns {A} a.
Arguments Raises {A} e.

(** The prompt sent to the backend.  The fixed wording of the template is
    not reproduced: a prompt is identified by the three values the
    template interpolates. *)
Record Prompt := {
  prompt_platform : str;
  prompt_post_text : str;
  prompt_guidance : str
}.

(** The backend's answer: what reading [response.parts] yields (the content
    parts, or the error the accessor raises), what reading [response.text]
    yields, and the block reason of the prompt feedback if there is one. *)
Record GenerateContentResponse := {
  parts : outcome (list str);
  text : outcome str;
  block_reason : option str
}.

(** The identifier the store assigns, known by its text form. *)
Record ObjectId := { hex : str }.
Record InsertOneResult := { inserted_id : ObjectId }.

(** A handle on the target collection. *)
Record Collection := {
  insert_one_result : Dict.t value -> outcome InsertOneResult
}.

(** The process-wide state the handlers read, fixed after start-up, and the
    behaviour of the two collaborators during one request. *)
Record World := {
  genai_configured : bool;
  generate_content_result : Prompt -> outcome GenerateContentResponse;
  reply_collection : option Collection;
  utcnow : datetime
}.

(** What a request does that is visible outside the handler's own
    computation: entering the two client functions, and each request sent
    to the backend or to the store. *)
Inductive event : Type :=
| call_generate_reply (platform post_text : str)
| generate_content_async (prompt : Prompt) (safety_settings : list (str * str))
| call_save_reply (reply_data : StoredReply.t)
| insert_one (document : Dict.t value).

(** A computation: the events it performed, in order, and its outcome.
    Log lines are not recorded. *)
Definition Py (A : Type) : Type := list event * outcome A.

Definition trace {A} (m : Py A) : list event := fst m.
Definition result {A} (m : Py A) : outcome A := snd m.

#[export] Instance Monad_Py : Monad Py := {
  ret := fun _ a => ([], Returns a);
  bind := fun _ _ m k =>
    match m with
    | (t, Returns a) => let (t', r) := k a in (t ++ t', r)
    | (t, Raises e) => (t, Raises e)
    end
}.

(** [raise e], and [try: m except Exception as e: h e]. *)
#[export] Instance MonadExc_Py : MonadExc exception Py := {
  raise := fun _ e => ([], Raises e);
  catch := fun _ m h =>
    match m with
    | (t, Raises e) => let (t', r) := h e in (t ++ t', r)
    | (t, Returns a) => (t, Returns a)
    end
}.

(** Record one event. *)
Definition emit (ev : event) : Py unit := ([ev], Returns tt).

(** Continue with the outcome of a call that was just made. *)
Definition await {A} (o : outcome A) : Py A := ([], o).

(* ===================================================================== *)
(** * llm_handler.py *)
(* ===================================================================== *)

Module llm_handler.

Definition generic_guidance : str :=
  lit "Be authentic, engaging, and relevant to the post.".

Definition platform_guidance : Dict.t str :=
  [ (lit "Twitter",
     lit "Keep it concise, possibly witty or conversational. Hashtags are common.");
    (lit "LinkedIn",
     lit "Maintain a professional but engaging tone. Focus on insights, encouragement, or relevant questions.");
    (lit "Instagram",
     lit "Be visually oriented (even if text-only reply), friendly, and often use emojis. Keep it relatively short and positive.");
    (lit "Generic", generic_guidance) ].

Definition create_prompt (platform post_text : str) : Prompt :=
  let guidance := Dict.get_default platform_guidance platform generic_guidance in
  {| prompt_platform := platform;
     prompt_post_text := post_text;
     prompt_guidance := guidance |}.

Definition safety_settings : list (str * str) :=
  [ (lit "HARM_CATEGORY_HARASSMENT", lit "BLOCK_NONE");
    (lit "HARM_CATEGORY_HATE_SPEECH", lit "BLOCK_NONE");
    (lit "HARM_CATEGORY_SEXUALLY_EXPLICIT", lit "BLOCK_NONE");
    (lit "HARM_CATEGORY_DANGEROUS_CONTENT", lit "BLOCK_NONE") ].

(** The post-processing inside [generate_reply], from
    [response.text.strip()] to the [return]: trim, then drop the first and
    the last character when the text starts and ends with the same straight
    quote. *)
Definition postprocess (text : str) : str :=
  let generated_text := strip text in
  if startswith generated_text [dquote] && endswith generated_text [dquote]
  then slice generated_text 1 (-1)
  else if startswith generated_text [squote] && endswith generated_text [squote]
  then slice generated_text 1 (-1)
  else generated_text.

Definition generate_reply (w : World) (platform post_text : str)
  : Py (option str) :=
  emit (call_generate_reply platform post_text) ;;
  if negb (genai_configured w) then ret None
  else
    let prompt := create_prompt platform post_text in
    catch
      (emit (generate_content_async prompt safety_settings) ;;
       response <- await (generate_content_result w prompt) ;;
       parts <- await (parts response) ;;
       match parts with
       | _ :: _ =>
           text <- await (text response) ;;
           ret (Some (postprocess text))
       | [] => ret None
       end)
      (fun _ => ret None).

Definition is_llm_available (w : World) : bool := genai_configured w.

End llm_handler.

(* ===================================================================== *)
(** * database.py *)
(* ===================================================================== *)

Module database.

Definition is_db_connected (w : World) : bool :=
  match reply_collection w with Some _ => true | None => false end.

(** The document handed to the store: the dump by alias without [None]
    values, from which a key [id] bound to [None] would be deleted. *)
Definition document_of (reply_data : StoredReply.t) : Dict.t value :=
  let document := StoredReply.model_dump true true reply_data in
  if Dict.contains document (lit "id")
     && match Dict.get document (lit "id") with
        | Some v => is_None v
        | None => false
        end
  then Dict.del document (lit "id")
  else document.

Definition save_reply (w : World) (reply_data : StoredReply.t)
  : Py (option str) :=
  emit (call_save_reply reply_data) ;;
  match reply_collection w with
  | None => ret None
  | Some collection =>
      catch
        (let document := document_of reply_data in
         emit (insert_one document) ;;
         result <- await (insert_one_result collection document) ;;
         ret (Some (hex (inserted_id result))))
        (fun _ => ret None)
  end.

End database.

(* ===================================================================== *)
(** * main.py *)
(* ===================================================================== *)

Module main.

(** What [main.py] imports from the two client modules, together with the
    clock that stamps a new [StoredReply]. *)
Record Services := {
  llm_generate_reply : str -> str -> Py (option str);
  is_llm_available : bool;
  save_reply : StoredReply.t -> Py (option str);
  is_db_connected : bool;
  datetime_utcnow : datetime
}.

(** An HTTP response: its status code and its decoded body. *)
Record Response := { status : Z; content : json }.

Definition check_services (svc : Services) : Py unit :=
  if negb (is_llm_available svc)
  then raise (HTTPException HTTP_503_SERVICE_UNAVAILABLE
                (lit "LLM service is not configured or unavailable."))
  else ret tt.

Definition generation_failed_detail : str :=
  lit "Failed to generate reply using the language model.".

Definition unexpected_error_prefix : str :=
  lit "An unexpected error occurred during reply generation: ".

Definition create_reply (svc : Services) (post_data : PostData.t)
  : Py ReplyResponse.t :=
  generated_reply_text <-
    catch
      (generated_reply_text <-
         llm_generate_reply svc (PostData.platform post_data)
                              (PostData.post_text post_data) ;;
       match generated_reply_text with
       | None =>
           raise (HTTPException HTTP_500_INTERNAL_SERVER_ERROR
                    generation_failed_detail)
       | Some generated_reply_text => ret generated_reply_text
       end)
      (fun e =>
         raise (HTTPException HTTP_500_INTERNAL_SERVER_ERROR
                  (unexpected_error_prefix ++ str_of_exception e))) ;;
  let reply_to_store :=
    StoredReply.make (datetime_utcnow svc) (PostData.platform post_data)
                     (PostData.post_text post_data) generated_reply_text in
  (if is_db_connected svc
   then inserted_id <- save_reply svc reply_to_store ;; ret tt
   else ret tt) ;;
  ret {| ReplyResponse.platform := StoredReply.platform reply_to_store;
         ReplyResponse.post_text := StoredReply.post_text reply_to_store;
         ReplyResponse.generated_reply :=
           StoredReply.generated_reply reply_to_store |}.

Definition read_root : Response :=
  {| status := HTTP_200_OK;
     content := JObject [ (lit "message",
       JString (lit "Welcome to the Social Media Reply Generator API!")) ] |}.

Definition health_check (svc : Services) : Response :=
  let db_status :=
    if is_db_connected svc then lit "connected" else lit "disconnected" in
  let llm_status :=
    if is_llm_available svc then lit "available" else lit "unavailable" in
  if str_eqb db_status (lit "connected") && str_eqb llm_status (lit "available")
  then {| status := HTTP_200_OK;
          content := JObject [ (lit "status", JString (lit "ok"));
                               (lit "database", JString db_status);
                               (lit "llm", JString llm_status) ] |}
  else {| status := HTTP_503_SERVICE_UNAVAILABLE;
          content := JObject [ (lit "status", JString (lit "error"));
                               (lit "database", JString db_status);
                               (lit "llm", JString llm_status) ] |}.

(** ** The framework around the handlers *)

(** The response built from an exception that leaves a handler or a
    dependency: an [HTTPException] becomes its status code with the body
    [{detail}], anything else the plain 500 answer. *)
Definition exception_response (e : exception) : Response :=
  match e with
  | HTTPException c d =>
      {| status := c; content := JObject [ (lit "detail", JString d) ] |}
  | Exception _ =>
      {| status := HTTP_500_INTERNAL_SERVER_ERROR;
         content := JString (lit "Internal Server Error") |}
  end.

(** The message that goes with each kind of validation error. *)
Definition error_msg (e : ValidationError) : str :=
  if str_eqb (type e) (lit "missing") then lit "Field required"
  else if str_eqb (type e) (lit "string_type")
  then lit "Input should be a valid string"
  else lit "Input should be a valid dictionary or object to extract fields from".

(** The input an error echoes: the offending value for a field of the
    wrong type, and otherwise the value that was validated as a whole, the
    body. *)
Definition error_input (body : json) (e : ValidationError) : json :=
  if str_eqb (type e) (lit "string_type") then
    match body, loc e with
    | JObject items, [_; name] =>
        match Dict.get items name with
        | Some v => v
        | None => body
        end
    | _, _ => body
    end
  else body.

(** One entry of the 422 body: kind, location, message and echoed input. *)
Definition validation_error_json (body : json) (e : ValidationError) : json :=
  JObject [ (lit "type", JString (type e));
            (lit "loc", JArray (map JString (loc e)));
            (lit "msg", JString (error_msg e));
            (lit "input", error_input body e) ].

(** The response to a body that fails validation. *)
Definition validation_response (body : json) (errors : list ValidationError)
  : Response :=
  {| status := HTTP_422_UNPROCESSABLE_ENTITY;
     content := JObject [ (lit "detail",
                           JArray (map (validation_error_json body)
                                       errors)) ] |}.

(** The plain 500 answer sent when an exception reaches the server. *)
Definition internal_server_error : Response :=
  {| status := HTTP_500_INTERNAL_SERVER_ERROR;
     content := JString (lit "Internal Server Error") |}.

(** Building the JSON response encodes its body; when the encoding raises,
    the exception leaves the handler and the plain 500 answer is sent in
    place of the response. *)
Definition render (r : Response) : Response :=
  if json_encodable (content r) then r else internal_server_error.

(** [POST /reply] on a decoded body.  The route declares the dependency
    [check_services] and the body parameter [post_data: PostData]: the
    framework runs the dependency, then validates the body, and only then
    calls [create_reply]; a successful return is sent with status 200.
    Every response is rendered before it is sent. *)
Definition post_reply (svc : Services) (body : json) : list event * Response :=
  match check_services svc with
  | (t, Raises e) => (t, render (exception_response e))
  | (t, Returns _) =>
      match PostData.model_validate body with
      | inl errors => (t, render (validation_response body errors))
      | inr post_data =>
          match create_reply svc post_data with
          | (t', Returns r) =>
              (t ++ t', render {| status := HTTP_200_OK;
                                  content := ReplyResponse.to_json r |})
          | (t', Raises e) => (t ++ t', render (exception_response e))
          end
      end
  end.

(** The imports as the running process resolves them. *)
Definition services (w : World) : Services :=
  {| llm_generate_reply := llm_handler.generate_reply w;
     is_llm_available := llm_handler.is_llm_available w;
     save_reply := database.save_reply w;
     is_db_connected := database.is_db_connected w;
     datetime_utcnow := utcnow w |}.

End main.

(** The service as deployed: the handlers of [main.py] over the two real
    clients. *)
Definition POST_reply (w : World) (body : json) : list event * main.Response :=
  main.post_reply (main.services w) body.

Definition GET_health (w : World) : main.Response :=
  main.health_check (main.services w).

(** The events that belong to persistence: entering [save_reply], and the
    insert sent to the store. *)
Definition is_persistence_event (ev : event) : bool :=
  match ev with
  | call_save_reply _ | insert_one _ => true
  | _ => false
  end.

(* ===================================================================== *)
(** * Derived definitions *)
(* ===================================================================== *)

Import llm_handler database.

(** The reply [generate_reply] hands back, read off the world. *)
Definition generated (w : World) (platform post_text : str) : option str :=
  if genai_configured w then
    match generate_content_result w (create_prompt platform post_text) with
    | Raises _ => None
    | Returns response =>
        match parts response, text response with
        | Returns (_ :: _), Returns raw => Some (postprocess raw)
        | _, _ => None
        end
    end
  else None.

(** The identifier [save_reply] hands back when connected to [collection]. *)
Definition saved (collection : Collection) (reply_data : StoredReply.t)
  : option str :=
  match insert_one_result collection (document_of reply_data) with
  | Returns result => Some (hex (inserted_id result))
  | Raises _ => None
  end.

(** Worlds used to run the service on concrete inputs. *)
Definition answer (raw : str) : GenerateContentResponse :=
  {| parts := Returns [raw]; text := Returns raw; block_reason := None |}.

Definition store_accepting : Collection :=
  {| insert_one_result := fun _ =>
       Returns {| inserted_id := {| hex := lit "65f0c2a1b7e4d90012ab34cd" |} |} |}.

Definition store_failing : Collection :=
  {| insert_one_result := fun _ =>
       Raises (Exception (lit "connection reset")) |}.

Definition world (configured : bool)
           (backend : outcome GenerateContentResponse)
           (store : option Collection) : World :=
  {| genai_configured := configured;
     generate_content_result := fun _ => backend;
     reply_collection := store;
     utcnow := 1700000000%Z |}.

Definition twitter : str := lit "Twitter".
Definition sample_post : str := lit "Testing the new API endpoint! #testing".

Definition sample_record : StoredReply.t :=
  StoredReply.make 1700000000%Z twitter sample_post (lit "Nice!").

(** The record [create_reply] builds from a request and a reply. *)
Definition reply_to_store (svc : main.Services) (post_data : PostData.t)
           (reply : str) : StoredReply.t :=
  StoredReply.make (main.datetime_utcnow svc) (PostData.platform post_data)
                   (PostData.post_text post_data) reply.

(** The successful response to a request. *)
Definition reply_response (post_data : PostData.t) (reply : str)
  : ReplyResponse.t :=
  {| ReplyResponse.platform := PostData.platform post_data;
     ReplyResponse.post_text := PostData.post_text post_data;
     ReplyResponse.generated_reply := reply |}.

(** A request body with the two fields of [PostData]. *)
Definition request_body (platform post_text : json) : json :=
  JObject [ (lit "platform", platform); (lit "post_text", post_text) ].

Definition sample_body : json :=
  request_body (JString twitter) (JString sample_post).

(** A text that cannot be encoded: one high surrogate on its own, as a JSON
    body can spell it with an escape. *)
Definition lone_surrogate : str := [0xD800%N].

Definition surrogate_body : json :=
  request_body (JString twitter) (JString lone_surrogate).

(** The body of an error response. *)
Definition error_body (detail : str) : json :=
  JObject [ (lit "detail", JString detail) ].

(** A backend answer without content parts, as for a blocked prompt. *)
Definition blocked_answer : GenerateContentResponse :=
  {| parts := Returns [];
     text := Raises (Exception (lit "response has no valid part"));
     block_reason := Some (lit "SAFETY") |}.

(** The imports with a model client that lets an exception escape. *)
Definition services_raising (e : exception) (w : World) : main.Services :=
  {| main.llm_generate_reply := fun _ _ => raise e;
     main.is_llm_available := true;
     main.save_reply := save_reply w;
     main.is_db_connected := is_db_connected w;
     main.datetime_utcnow := utcnow w |}.

(* ===================================================================== *)
(** * llm_handler.py: the prompt text and the configuration at import *)
(* ===================================================================== *)

Module prompt.

Definition newline : codepoint := 10%N.

(** The template up to the first [{platform}]. *)
Definition prompt_opening : str :=
  [newline]
  ++ lit "    You are an expert social media user tasked with writing replies." ++ [newline]
  ++ lit "    Your goal is to generate a reply that is indistinguishable from one written by a real, thoughtful human." ++ [newline]
  ++ [newline]
  ++ lit "    **Context:**" ++ [newline]
  ++ lit "    - **Platform:** ".

(** The template between [{platform}] and [{post_text}]. *)
Definition prompt_before_post : str :=
  [newline]
  ++ lit "    - **Original Post:** " ++ [dquote].

(** The template between [{post_text}] and the second [{platform}]. *)
Definition prompt_after_post : str :=
  [dquote] ++ [newline]
  ++ [newline]
  ++ lit "    **Instructions:**" ++ [newline]
  ++ lit "    1.  **Analyze:** Understand the tone, style, intent (e.g., sharing news, asking question, expressing opinion), and context of the original post." ++ [newline]
  ++ lit "    2.  **Platform Nuance:** Consider the typical communication style for ".

(** The template between the second [{platform}] and [{guidance}]. *)
Definition prompt_before_guidance : str :=
  lit ". ".

(** The template after [{guidance}], down to the closing quotes. *)
Definition prompt_closing : str :=
  [newline]
  ++ lit "    3.  **Generate Reply:** Write a reply that:" ++ [newline]
  ++ lit "        - Is authentic and sounds like a real person genuinely engaging with the post." ++ [newline]
  ++ lit "        - Directly relates to the content of the original post." ++ [newline]
  ++ lit "        - Matches the likely tone and context (unless a contrasting tone is clearly appropriate and human-like, e.g., gentle disagreement)." ++ [newline]
  ++ lit "        - Is concise and easy to read." ++ [newline]
  ++ lit "        - **Crucially, avoids AI giveaways:** Do NOT use overly formal language, generic phrases (" ++ [dquote] ++ lit "That's interesting!" ++ [dquote] ++ lit ", " ++ [dquote] ++ lit "Great post!" ++ [dquote] ++ lit "), repetitive sentence structures, or language that feels unnaturally objective or detached. Do not sound like a chatbot or assistant." ++ [newline]
  ++ lit "        - If appropriate for the platform and context, consider adding relevant emojis or hashtags, but don't overdo it." ++ [newline]
  ++ lit "    4.  **Output ONLY the reply text.** Do not include any preamble, explanation, or quotation marks around the reply itself." ++ [newline]
  ++ [newline]
  ++ lit "    **Example Scenario (Internal Thought Process - DO NOT replicate in output):**" ++ [newline]
  ++ lit "    - *If Post is:* " ++ [dquote] ++ lit "Just finished a marathon! So tired but proud. #running" ++ [dquote] ++ lit " (on Instagram)" ++ [newline]
  ++ lit "    - *Your thought:* " ++ [dquote] ++ lit "Okay, Instagram post, celebratory and personal. Reply should be encouraging, maybe use an emoji. Keep it short." ++ [dquote] ++ [newline]
  ++ lit "    - *Good Reply:* " ++ [dquote] ++ lit "Wow, congratulations! That's amazing! Rest up!" ++ [dquote] ++ [newline]
  ++ lit "    - *Bad Reply (AI giveaway):* " ++ [dquote] ++ lit "Acknowledged. Completing a marathon is a significant achievement demonstrating physical endurance. Well done." ++ [dquote] ++ [newline]
  ++ [newline]
  ++ lit "    **Generate the human-like reply now based on the provided Platform and Original Post:**" ++ [newline]
  ++ lit "    ".

(** The f-string of [create_prompt] with its three values filled in. *)
Definition template (platform post_text guidance : str) : str :=
  prompt_opening ++ platform ++ prompt_before_post ++ post_text
  ++ prompt_after_post ++ platform ++ prompt_before_guidance ++ guidance
  ++ prompt_closing.

(** The text [create_prompt] returns: [prompt.strip()], for the values a
    [Prompt] stands for. *)
Definition text_of (p : Prompt) : str :=
  strip (template (prompt_platform p) (prompt_post_text p)
                  (prompt_guidance p)).

(** The template without the blank first line and indentation that open it
    and the line break and indentation that close it. *)
Definition margin : str := newline :: lit "    ".

End prompt.

(** [os.environ] after [load_dotenv()], and the two forms of [os.getenv]. *)
Module os.

Definition getenv (environ : Dict.t str) (key : str) : option str :=
  Dict.get environ key.

Definition getenv_default (environ : Dict.t str) (key default : str) : str :=
  Dict.get_default environ key default.

End os.

(** The truth value of an optional text in a condition: [None] and the
    empty text are false. *)
Definition truthy (s : option str) : bool :=
  match s with
  | Some (_ :: _) => true
  | _ => false
  end.

Module llm_setup.

(** The two calls into the client library made when the module is
    imported. *)
Record genai := {
  configure : str -> outcome unit;
  GenerativeModel : str -> outcome unit
}.

(** The module-level code of [llm_handler.py]: the value it leaves in
    [genai_configured]. *)
Definition import_module (environ : Dict.t str) (lib : genai) : bool :=
  let GOOGLE_API_KEY := os.getenv environ (lit "GOOGLE_API_KEY") in
  if negb (truthy GOOGLE_API_KEY) then false
  else
    match GOOGLE_API_KEY with
    | Some api_key =>
        match configure lib api_key with
        | Raises _ => false
        | Returns _ =>
            match GenerativeModel lib (lit "gemini-2.0-flash") with
            | Raises _ => false
            | Returns _ => true
            end
        end
    | None => false
    end.

End llm_setup.

(* ===================================================================== *)
(** * database.py: configuration, connection and shutdown *)
(* ===================================================================== *)

Module mongo.

(** [db[name]] and [client[name]] on the driver's objects, and the
    liveness probe of a client. *)
Record MotorDatabase := { get_collection : str -> outcome Collection }.

Record MotorClient := {
  admin_ping : outcome unit;
  get_database : str -> outcome MotorDatabase
}.

(** The three module-level settings. *)
Record Config := {
  MONGODB_URI : option str;
  DB_NAME : str;
  COLLECTION_NAME : str
}.

Definition load_config (environ : Dict.t str) : Config :=
  {| MONGODB_URI := os.getenv environ (lit "MONGODB_URI");
     DB_NAME := os.getenv_default environ (lit "MONGODB_DB_NAME")
                                  (lit "TechnicalTask");
     COLLECTION_NAME := os.getenv_default environ (lit "MONGODB_COLLECTION_NAME")
                                          (lit "replies") |}.

(** The three module-level handles. *)
Record Globals := {
  client : option MotorClient;
  db : option MotorDatabase;
  reply_collection : option Collection
}.

(** Their values when the module has just been imported. *)
Definition initial : Globals :=
  {| client := None; db := None; reply_collection := None |}.

(** The calls made on the driver. *)
Inductive driver_event : Type :=
| AsyncIOMotorClient_call (uri : str)
| ping_command
| client_close.

(** A computation over the module's handles: from their values, the driver
    calls made, their new values, and the outcome. *)
Definition M (A : Type) : Type :=
  Globals -> list driver_event * Globals * outcome A.

#[global] Instance Monad_M : Monad M := {
  ret := fun _ a g => ([], g, Returns a);
  bind := fun _ _ m k g =>
    match m g with
    | (t, g', Returns a) =>
        match k a g' with (t', g'', r) => (t ++ t', g'', r) end
    | (t, g', Raises e) => (t, g', Raises e)
    end
}.

(** [try: m except Exception as e: h e]; assignments made before the
    exception stay. *)
#[global] Instance MonadExc_M : MonadExc exception M := {
  raise := fun _ e g => ([], g, Raises e);
  catch := fun _ m h g =>
    match m g with
    | (t, g', Raises e) =>
        match h e g' with (t', g'', r) => (t ++ t', g'', r) end
    | (t, g', Returns a) => (t, g', Returns a)
    end
}.

Definition get : M Globals := fun g => ([], g, Returns g).

Definition set_client (c : option MotorClient) : M unit := fun g =>
  ([], {| client := c; db := db g; reply_collection := reply_collection g |},
   Returns tt).

Definition set_db (d : option MotorDatabase) : M unit := fun g =>
  ([], {| client := client g; db := d;
          reply_collection := reply_collection g |},
   Returns tt).

Definition set_reply_collection (c : option Collection) : M unit := fun g =>
  ([], {| client := client g; db := db g; reply_collection := c |},
   Returns tt).

Definition emit (ev : driver_event) : M unit := fun g => ([ev], g, Returns tt).

Definition await {A} (o : outcome A) : M A := fun g => ([], g, o).

Definition connect_to_mongo (cfg : Config)
           (AsyncIOMotorClient : str -> outcome MotorClient) : M unit :=
  catch
    (if truthy (MONGODB_URI cfg) then
       match MONGODB_URI cfg with
       | Some uri =>
           emit (AsyncIOMotorClient_call uri) ;;
           c <- await (AsyncIOMotorClient uri) ;;
           set_client (Some c) ;;
           emit ping_command ;;
           await (admin_ping c) ;;
           d <- await (get_database c (DB_NAME cfg)) ;;
           set_db (Some d) ;;
           collection <- await (get_collection d (COLLECTION_NAME cfg)) ;;
           set_reply_collection (Some collection)
       | None => ret tt
       end
     else
       set_db None ;;
       set_reply_collection None)
    (fun _ =>
       set_client None ;;
       set_db None ;;
       set_reply_collection None).

Definition close_mongo_connection : M unit :=
  g <- get ;;
  match client g with
  | Some _ => emit client_close
  | None => ret tt
  end.

(** [is_db_connected()] on the module's handles. *)
Definition is_db_connected (g : Globals) : bool :=
  match reply_collection g with Some _ => true | None => false end.

End mongo.

(* ===================================================================== *)
(** * main.py: the application life cycle *)
(* ===================================================================== *)

(** The world the handlers see once both client modules are set up. *)
Definition world_of (configured : bool)
           (backend : Prompt -> outcome GenerateContentResponse)
           (now : datetime) (g : mongo.Globals) : World :=
  {| genai_configured := configured;
     generate_content_result := backend;
     reply_collection := mongo.reply_collection g;
     utcnow := now |}.

(** [lifespan]: connect, let the application serve (the [yield]) with the
    handles as they are then, and close the connection.  The warning logged
    at start-up when the model client is unavailable is a log line and is
    not recorded. *)
Definition lifespan {A} (cfg : mongo.Config)
           (AsyncIOMotorClient : str -> outcome mongo.MotorClient)
           (serve : mongo.Globals -> A) : mongo.M A :=
  mongo.connect_to_mongo cfg AsyncIOMotorClient ;;
  g <- mongo.get ;;
  let served := serve g in
  mongo.close_mongo_connection ;;
  ret served.

(** One run of the process: the environment is read, both modules are set
    up, and the requests are answered in turn between start-up and
    shutdown. *)
Definition run (environ : Dict.t str) (lib : llm_setup.genai)
           (AsyncIOMotorClient : str -> outcome mongo.MotorClient)
           (backend : Prompt -> outcome GenerateContentResponse)
           (now : datetime) (requests : list json)
  : list mongo.driver_event * mongo.Globals
    * outcome (list (list event * main.Response)) :=
  lifespan (mongo.load_config environ) AsyncIOMotorClient
           (fun g =>
              map (POST_reply (world_of (llm_setup.import_module environ lib)
                                        backend now g))
                  requests)
           mongo.initial.

(** Scenery for concrete runs. *)
Definition sample_database : mongo.MotorDatabase :=
  {| mongo.get_collection := fun _ => Returns store_accepting |}.

Definition client_up : mongo.MotorClient :=
  {| mongo.admin_ping := Returns tt;
     mongo.get_database := fun _ => Returns sample_database |}.

Definition client_unreachable : mongo.MotorClient :=
  {| mongo.admin_ping :=
       Raises (Exception (lit "server selection timed out"));
     mongo.get_database := fun _ => Returns sample_database |}.

Definition genai_up : llm_setup.genai :=
  {| llm_setup.configure := fun _ => Returns tt;
     llm_setup.GenerativeModel := fun _ => Returns tt |}.

Definition sample_environ : Dict.t str :=
  [ (lit "GOOGLE_API_KEY", lit "k-123");
    (lit "MONGODB_URI", lit "mongodb://localhost:27017") ].

(* ===================================================================== *)
(** * Properties *)
(* ===================================================================== *)

(** ** Facts about the built-ins *)

Section PyStrFacts.

Lemma str_eqb_eq (s1 s2 : str) : str_eqb s1 s2 = true <-> s1 = s2.
Proof.
  revert s2. induction s1 as [|c s1 IH]; intros [|d s2]; simpl;
    try (split; [discriminate | congruence]); try tauto.
  rewrite andb_true_iff, N.eqb_eq, IH. split.
  - intros [-> ->]. reflexivity.
  - intros E. injection E as -> ->. auto.
Qed.

Lemma str_eqb_refl (s : str) : str_eqb s s = true.
Proof. apply str_eqb_eq. reflexivity. Qed.

(** [lstrip] removes a white-space prefix and nothing else. *)
Lemma lstrip_split (s : str) :
  exists l, s = l ++ lstrip s /\ forallb isspace l = true.
Proof.
  induction s as [|c s [l [E F]]]; simpl.
  - exists []. auto.
  - destruct (isspace c) eqn:Hc.
    + exists (c :: l). simpl. rewrite Hc, F. split; [congruence | reflexivity].
    + exists []. auto.
Qed.

Lemma lstrip_head (s : str) c t : lstrip s = c :: t -> isspace c = false.
Proof.
  induction s as [|d s IH]; simpl; [discriminate|].
  destruct (isspace d) eqn:Hd; auto.
  intros E. injection E as <- _. exact Hd.
Qed.

(** Stripping on the left of a text whose last character is no white space
    keeps that last character. *)
Lemma lstrip_keeps_last (s : str) c :
  isspace c = false -> exists t, lstrip (s ++ [c]) = t ++ [c].
Proof.
  intros Hc. induction s as [|d s [t E]]; simpl.
  - rewrite Hc. exists []. reflexivity.
  - destruct (isspace d).
    + exists t. exact E.
    + exists (d :: s). reflexivity.
Qed.

Lemma lstrip_nospace_head (s : str) c :
  isspace c = false -> lstrip (c :: s) = c :: s.
Proof. intros Hc. simpl. rewrite Hc. reflexivity. Qed.

Lemma rstrip_split (s : str) :
  exists r, s = rstrip s ++ r /\ forallb isspace r = true.
Proof.
  unfold rstrip. destruct (lstrip_split (rev s)) as [l [E F]].
  exists (rev l). split.
  - rewrite <- rev_app_distr, <- E, rev_involutive. reflexivity.
  - rewrite forallb_forall in *. intros x Hx. apply F.
    apply in_rev. exact Hx.
Qed.

Lemma rstrip_last (s : str) t c : rstrip s = t ++ [c] -> isspace c = false.
Proof.
  unfold rstrip. intros E.
  apply (f_equal (@rev _)) in E. rewrite rev_involutive, rev_app_distr in E.
  simpl in E. eapply lstrip_head. exact E.
Qed.

(** Stripping on the right does not disturb a first character that is no
    white space. *)
Lemma rstrip_keeps_head (s : str) c :
  isspace c = false -> exists t, rstrip (c :: s) = c :: t.
Proof.
  intros Hc. unfold rstrip. simpl.
  destruct (lstrip_keeps_last (rev s) c Hc) as [t E].
  rewrite E, rev_app_distr. simpl. eauto.
Qed.

(** What [strip] does: it removes a run of white space at each end, and the
    text that remains neither starts nor ends with white space. *)
Lemma strip_split (s : str) :
  exists l r, s = l ++ strip s ++ r
              /\ forallb isspace l = true /\ forallb isspace r = true.
Proof.
  unfold strip.
  destruct (lstrip_split s) as [l [E F]].
  destruct (rstrip_split (lstrip s)) as [r [E' F']].
  exists l, r. rewrite <- E', <- E. auto.
Qed.

Lemma strip_last (s : str) t c : strip s = t ++ [c] -> isspace c = false.
Proof. unfold strip. apply rstrip_last. Qed.

Lemma strip_head (s : str) c t : strip s = c :: t -> isspace c = false.
Proof.
  unfold strip. intros E.
  destruct (lstrip s) as [|d u] eqn:L.
  - discriminate E.
  - pose proof (lstrip_head _ _ _ L) as Hd.
    destruct (rstrip_keeps_head u d Hd) as [t' E'].
    rewrite E' in E. injection E as <- _. exact Hd.
Qed.

(** A text without surrounding white space is a fixed point of [strip]. *)
Lemma strip_trimmed (c : codepoint) (m : str) (d : codepoint) :
  isspace c = false -> isspace d = false ->
  strip (c :: m ++ [d]) = c :: m ++ [d].
Proof.
  intros Hc Hd. unfold strip, rstrip.
  rewrite (lstrip_nospace_head _ _ Hc).
  replace (rev (c :: m ++ [d])) with (d :: rev (c :: m))
    by (change (c :: m ++ [d]) with ((c :: m) ++ [d]);
        rewrite rev_app_distr; reflexivity).
  rewrite (lstrip_nospace_head _ _ Hd).
  change (rev (d :: rev (c :: m))) with (rev (rev (c :: m)) ++ [d]).
  rewrite rev_involutive. reflexivity.
Qed.

Lemma startswith_1 (s : str) (q : codepoint) :
  startswith s [q] = true <-> exists t, s = q :: t.
Proof.
  destruct s as [|d s]; simpl.
  - split; [discriminate | intros [t E]; discriminate E].
  - rewrite andb_true_r, N.eqb_eq. split.
    + intros ->. eauto.
    + intros [t E]. injection E as -> _. reflexivity.
Qed.

Lemma endswith_1 (s : str) (q : codepoint) :
  endswith s [q] = true <-> exists t, s = t ++ [q].
Proof.
  unfold endswith. simpl rev at 2. rewrite startswith_1. split.
  - intros [t E]. exists (rev t).
    apply (f_equal (@rev _)) in E. rewrite rev_involutive in E. exact E.
  - intros [t ->]. exists (rev t). rewrite rev_app_distr. reflexivity.
Qed.

(** [s[1:-1]] on a text of at least two characters is its interior. *)
Lemma slice_interior {A} (a : A) (m : list A) (b : A) :
  slice (a :: m ++ [b]) 1 (-1) = m.
Proof.
  unfold slice, clamp_index. simpl List.length. rewrite length_app. simpl List.length.
  replace (Z.of_nat (S (List.length m + 1))) with (Z.of_nat (List.length m) + 2)%Z by lia.
  change (1 <? 0)%Z with false. change (-1 <? 0)%Z with true. cbv iota.
  rewrite Z.min_l by lia. rewrite Z.max_l by lia.
  change (Z.to_nat 1) with 1%nat. simpl skipn.
  replace (Z.to_nat (-1 + (Z.of_nat (List.length m) + 2) - 1)) with (List.length m) by lia.
  rewrite firstn_app, Nat.sub_diag, firstn_all. simpl. apply app_nil_r.
Qed.

(** [s[1:-1]] on a one-character text is empty. *)
Lemma slice_singleton {A} (a : A) : slice [a] 1 (-1) = [].
Proof. reflexivity. Qed.

End PyStrFacts.

(** ** Running the two clients *)

(** [generate_reply] always returns; it contacts the backend once when the
    client is configured and not at all otherwise. *)
Lemma generate_reply_run (w : World) (platform post_text : str) :
  generate_reply w platform post_text =
  (call_generate_reply platform post_text ::
     (if genai_configured w
      then [generate_content_async (create_prompt platform post_text)
                                   safety_settings]
      else []),
   Returns (generated w platform post_text)).
Proof.
  unfold generate_reply, generated.
  destruct (genai_configured w); [|reflexivity].
  cbn. destruct (generate_content_result w _) as [response|e]; [|reflexivity].
  destruct (parts response) as [[|p ps]|e]; [reflexivity| |reflexivity].
  cbn. destruct (text response); reflexivity.
Qed.

Lemma save_reply_run (w : World) (reply_data : StoredReply.t) :
  save_reply w reply_data =
  match reply_collection w with
  | None => ([call_save_reply reply_data], Returns None)
  | Some collection =>
      ([call_save_reply reply_data; insert_one (document_of reply_data)],
       Returns (saved collection reply_data))
  end.
Proof.
  unfold save_reply, saved.
  destruct (reply_collection w) as [collection|]; [|reflexivity].
  cbn. destruct (insert_one_result collection _); reflexivity.
Qed.

(** The dumped document: the four fields that are always set, then the
    identifier under its alias when there is one. *)
Lemma document_of_eq (r : StoredReply.t) :
  document_of r =
  [ (lit "platform", VStr (StoredReply.platform r));
    (lit "post_text", VStr (StoredReply.post_text r));
    (lit "generated_reply", VStr (StoredReply.generated_reply r));
    (lit "timestamp", VDatetime (StoredReply.timestamp r)) ]
  ++ match StoredReply.id r with
     | Some i => [ (lit "_id", VStr i) ]
     | None => []
     end.
Proof.
  unfold document_of, StoredReply.model_dump.
  destruct (StoredReply.id r); reflexivity.
Qed.

(** ** Post-processing *)

Lemma postprocess_wrapped (raw : str) (q : codepoint) (m : str) :
  q = dquote \/ q = squote ->
  strip raw = q :: m ++ [q] ->
  postprocess raw = m.
Proof.
  intros Hq E. unfold postprocess. rewrite E.
  assert (Hend : endswith (q :: m ++ [q]) [q] = true).
  { apply endswith_1. exists (q :: m). reflexivity. }
  destruct Hq as [-> | ->].
  - rewrite Hend. cbn [startswith]. rewrite N.eqb_refl. cbn [andb].
    apply slice_interior.
  - rewrite Hend.
    replace (startswith (squote :: m ++ [squote]) [dquote]) with false
      by reflexivity.
    cbn [startswith andb]. rewrite N.eqb_refl. cbn [andb].
    apply slice_interior.
Qed.

Lemma postprocess_unwrapped (raw : str) :
  startswith (strip raw) [dquote] && endswith (strip raw) [dquote] = false ->
  startswith (strip raw) [squote] && endswith (strip raw) [squote] = false ->
  postprocess raw = strip raw.
Proof. intros H1 H2. unfold postprocess. rewrite H1, H2. reflexivity. Qed.

Lemma postprocess_lone_quote (raw : str) (q : codepoint) :
  q = dquote \/ q = squote -> strip raw = [q] -> postprocess raw = [].
Proof.
  intros [-> | ->] E; unfold postprocess; rewrite E; reflexivity.
Qed.

(** A successful generation returns the post-processed backend text. *)
Lemma generate_reply_success (w : World) (platform post_text : str)
      (response : GenerateContentResponse) (ps : list str) (raw : str) :
  genai_configured w = true ->
  generate_content_result w (create_prompt platform post_text)
    = Returns response ->
  parts response = Returns ps -> ps <> [] ->
  text response = Returns raw ->
  result (generate_reply w platform post_text)
    = Returns (Some (postprocess raw)).
Proof.
  intros Hc Hr Hp Hne Ht. rewrite generate_reply_run. unfold result, generated.
  cbn [snd]. rewrite Hc, Hr, Hp, Ht.
  destruct ps; [contradiction Hne|]; reflexivity.
Qed.

(** C4. Post-processing in [generate_reply]: the backend text is trimmed of
    surrounding white space first; when the trimmed text is wrapped in a
    pair of straight double quotes or of straight single quotes, the reply
    is exactly the text between that pair, whatever it contains (one strip,
    not repeated); when it does not both start and end with the same
    straight quote (one-sided or mismatched quoting), the reply is the
    trimmed text unchanged. *)
Theorem generate_reply_postprocessing
        (w : World) (platform post_text : str)
        (response : GenerateContentResponse) (ps : list str) (raw : str) :
  genai_configured w = true ->
  generate_content_result w (create_prompt platform post_text)
    = Returns response ->
  parts response = Returns ps -> ps <> [] ->
  text response = Returns raw ->
  exists reply,
    result (generate_reply w platform post_text) = Returns (Some reply)
    /\ (exists l r, raw = l ++ strip raw ++ r
                    /\ forallb isspace l = true /\ forallb isspace r = true)
    /\ (forall c t, strip raw = c :: t -> isspace c = false)
    /\ (forall t c, strip raw = t ++ [c] -> isspace c = false)
    /\ (forall q m, q = dquote \/ q = squote ->
                    strip raw = q :: m ++ [q] -> reply = m)
    /\ (startswith (strip raw) [dquote] && endswith (strip raw) [dquote]
          = false ->
        startswith (strip raw) [squote] && endswith (strip raw) [squote]
          = false ->
        reply = strip raw).
Proof.
  intros Hc Hr Hp Hne Ht. exists (postprocess raw).
  split; [apply (generate_reply_success w _ _ response ps); assumption|].
  split; [apply strip_split|].
  split; [apply strip_head|].
  split; [apply strip_last|].
  split.
  - intros q m Hq E. apply (postprocess_wrapped raw q m Hq E).
  - apply postprocess_unwrapped.
Qed.

(** The backend text [  "hello"  ] (quotes included) becomes [hello]. *)
Lemma generate_reply_postprocessing_witness :
  result (generate_reply
            (world true (Returns (answer (lit "  " ++ dquote :: lit "hello"
                                            ++ dquote :: lit " ")))
                   None)
            twitter sample_post)
  = Returns (Some (lit "hello")).
Proof.
  destruct (generate_reply_postprocessing
              (world true (Returns (answer (lit "  " ++ dquote :: lit "hello"
                                              ++ dquote :: lit " "))) None)
              twitter sample_post _ _ _
              eq_refl eq_refl eq_refl ltac:(discriminate) eq_refl)
    as [reply [E [_ [_ [_ [W _]]]]]].
  rewrite E. rewrite (W dquote (lit "hello") (or_introl eq_refl) eq_refl).
  reflexivity.
Defined.

(** One-sided quoting is left alone, and only one pair is removed. *)
Example postprocess_one_sided :
  postprocess (dquote :: lit "hello") = dquote :: lit "hello"
  /\ postprocess (lit "hello" ++ [squote]) = lit "hello" ++ [squote]
  /\ postprocess (dquote :: lit "hello" ++ [squote])
     = dquote :: lit "hello" ++ [squote]
  /\ postprocess (dquote :: dquote :: lit "hello" ++ [dquote; dquote])
     = dquote :: lit "hello" ++ [dquote].
Proof. repeat split; reflexivity. Qed.

(** C10. The quote test of [generate_reply] asks for no minimum length:
    when the trimmed backend text is one straight double quote or one
    straight single quote, that one character satisfies both the
    [startswith] and the [endswith] test, and the reply is the empty
    text. *)
Theorem generate_reply_lone_quote
        (w : World) (platform post_text : str)
        (response : GenerateContentResponse) (ps : list str) (raw : str)
        (q : codepoint) :
  genai_configured w = true ->
  generate_content_result w (create_prompt platform post_text)
    = Returns response ->
  parts response = Returns ps -> ps <> [] ->
  text response = Returns raw ->
  q = dquote \/ q = squote ->
  strip raw = [q] ->
  startswith (strip raw) [q] = true
  /\ endswith (strip raw) [q] = true
  /\ result (generate_reply w platform post_text) = Returns (Some []).
Proof.
  intros Hc Hr Hp Hne Ht Hq E.
  rewrite (generate_reply_success w _ _ response ps raw Hc Hr Hp Hne Ht).
  rewrite (postprocess_lone_quote raw q Hq E), E.
  unfold endswith. cbn. rewrite N.eqb_refl. auto.
Qed.

Lemma generate_reply_lone_quote_witness :
  result (generate_reply (world true (Returns (answer (lit " " ++ [squote])))
                                None)
                         twitter sample_post)
  = Returns (Some []).
Proof.
  apply (generate_reply_lone_quote
           (world true (Returns (answer (lit " " ++ [squote]))) None)
           twitter sample_post (answer (lit " " ++ [squote]))
           [lit " " ++ [squote]] (lit " " ++ [squote]) squote
           eq_refl eq_refl eq_refl ltac:(discriminate) eq_refl
           (or_intror eq_refl) eq_refl).
Defined.

(** ** The two clients never raise *)

(** C7. [generate_reply] signals unavailability by returning [None] and
    never raises: its outcome is always a returned value, and that value is
    [None] exactly when the client is disabled, or the backend call raised,
    or the backend answered with no content parts, or reading the parts or
    the text of the answer raised.  When the client is disabled the backend
    is not contacted: the only event is the entry into [generate_reply]. *)
Theorem generate_reply_unavailable_signal
        (w : World) (platform post_text : str) :
  exists r,
    result (generate_reply w platform post_text) = Returns r
    /\ (r = None <->
        genai_configured w = false
        \/ (exists e,
               generate_content_result w (create_prompt platform post_text)
               = Raises e)
        \/ (exists response,
               generate_content_result w (create_prompt platform post_text)
               = Returns response
               /\ (parts response = Returns []
                   \/ (exists e, parts response = Raises e)
                   \/ (exists e, text response = Raises e))))
    /\ (genai_configured w = false ->
        trace (generate_reply w platform post_text)
        = [call_generate_reply platform post_text]).
Proof.
  rewrite generate_reply_run. exists (generated w platform post_text).
  split; [reflexivity|]. unfold trace, generated. cbn [fst].
  destruct (genai_configured w).
  - split; [|discriminate].
    destruct (generate_content_result w _) as [response|e].
    + destruct (parts response) as [[|p ps]|e] eqn:Hp.
      * split; [|reflexivity]. intros _. right; right.
        exists response. auto.
      * destruct (text response) as [raw|e] eqn:Ht.
        -- split; [discriminate|].
           intros [H | [[e H] | [response' [H [H' | [[e H'] | [e H']]]]]]];
             try discriminate; injection H as <-; congruence.
        -- split; [|reflexivity]. intros _. right; right.
           exists response. split; [reflexivity|]. right; right. eauto.
      * split; [|reflexivity]. intros _. right; right.
        exists response. split; [reflexivity|]. right; left. eauto.
    + split; [|reflexivity]. intros _. right; left. eauto.
  - split; [|reflexivity]. split; auto.
Qed.

(** A backend call that times out yields [None], not an exception. *)
Lemma generate_reply_unavailable_signal_witness :
  result (generate_reply
            (world true (Raises (Exception (lit "deadline exceeded"))) None)
            twitter sample_post)
  = Returns None.
Proof.
  destruct (generate_reply_unavailable_signal
              (world true (Raises (Exception (lit "deadline exceeded"))) None)
              twitter sample_post) as [r [E [I _]]].
  rewrite E. f_equal. apply I. right; left.
  exists (Exception (lit "deadline exceeded")). reflexivity.
Defined.

(** C8. [save_reply] never raises.  Disconnected, it returns [None] at once
    and attempts no insert.  Connected, it dumps the record (the four set
    fields, and the identifier under its alias only when one is set),
    performs exactly one insert of that document, and returns the text of
    the assigned identifier when the insert succeeds and [None] when the
    insert raises. *)
Theorem save_reply_best_effort (w : World) (reply_data : StoredReply.t) :
  (reply_collection w = None ->
   save_reply w reply_data = ([call_save_reply reply_data], Returns None))
  /\ (forall collection, reply_collection w = Some collection ->
      exists document,
        document =
          [ (lit "platform", VStr (StoredReply.platform reply_data));
            (lit "post_text", VStr (StoredReply.post_text reply_data));
            (lit "generated_reply",
             VStr (StoredReply.generated_reply reply_data));
            (lit "timestamp", VDatetime (StoredReply.timestamp reply_data)) ]
          ++ match StoredReply.id reply_data with
             | Some i => [ (lit "_id", VStr i) ]
             | None => []
             end
        /\ trace (save_reply w reply_data)
           = [call_save_reply reply_data; insert_one document]
        /\ (forall r, insert_one_result collection document = Returns r ->
            result (save_reply w reply_data)
            = Returns (Some (hex (inserted_id r))))
        /\ (forall e, insert_one_result collection document = Raises e ->
            result (save_reply w reply_data) = Returns None))
  /\ exists r, result (save_reply w reply_data) = Returns r.
Proof.
  rewrite save_reply_run. split; [|split].
  - intros ->. reflexivity.
  - intros collection ->. exists (document_of reply_data).
    split; [apply document_of_eq|]. split; [reflexivity|].
    unfold result, saved. cbn [snd].
    split; [intros r -> | intros e ->]; reflexivity.
  - destruct (reply_collection w); eexists; reflexivity.
Qed.

Lemma save_reply_best_effort_witness :
  save_reply (world true (Returns (answer (lit "Nice!"))) None)
             sample_record
  = ([call_save_reply sample_record],
     Returns None)
  /\ result (save_reply
               (world true (Returns (answer (lit "Nice!")))
                      (Some store_accepting))
               sample_record)
     = Returns (Some (lit "65f0c2a1b7e4d90012ab34cd"))
  /\ result (save_reply
               (world true (Returns (answer (lit "Nice!")))
                      (Some store_failing))
               sample_record)
     = Returns None.
Proof.
  split; [|split].
  - apply (proj1 (save_reply_best_effort
                    (world true (Returns (answer (lit "Nice!"))) None)
                    sample_record)).
    reflexivity.
  - destruct (proj1 (proj2 (save_reply_best_effort
                    (world true (Returns (answer (lit "Nice!")))
                           (Some store_accepting))
                    sample_record))
                store_accepting eq_refl) as [document [_ [_ [Hok _]]]].
    apply (Hok {| inserted_id := {| hex := lit "65f0c2a1b7e4d90012ab34cd" |} |}).
    reflexivity.
  - destruct (proj1 (proj2 (save_reply_best_effort
                    (world true (Returns (answer (lit "Nice!")))
                           (Some store_failing))
                    sample_record))
                store_failing eq_refl) as [document [_ [_ [_ Hko]]]].
    apply (Hko (Exception (lit "connection reset"))). reflexivity.
Defined.

(** ** Health *)

(** C9. [GET /health] answers 200 exactly when the store is connected and
    the model client is available, and then with the body
    [{status: ok, database: connected, llm: available}]; in every other
    case it answers 503 with [status: error] and the actual state of each
    dependency. *)
Theorem health_check_status (svc : main.Services) :
  (main.status (main.health_check svc) = 200%Z <->
   main.is_db_connected svc = true /\ main.is_llm_available svc = true)
  /\ (main.is_db_connected svc = true /\ main.is_llm_available svc = true ->
      main.health_check svc =
      {| main.status := 200;
         main.content :=
           JObject [ (lit "status", JString (lit "ok"));
                     (lit "database", JString (lit "connected"));
                     (lit "llm", JString (lit "available")) ] |})
  /\ (~ (main.is_db_connected svc = true /\ main.is_llm_available svc = true) ->
      main.health_check svc =
      {| main.status := 503;
         main.content :=
           JObject [ (lit "status", JString (lit "error"));
                     (lit "database",
                      JString (if main.is_db_connected svc
                               then lit "connected" else lit "disconnected"));
                     (lit "llm",
                      JString (if main.is_llm_available svc
                               then lit "available" else lit "unavailable")) ] |}).
Proof.
  unfold main.health_check.
  destruct (main.is_db_connected svc), (main.is_llm_available svc); cbn;
    (split; [split; [try discriminate; auto | intros [? ?]; try discriminate; reflexivity]
            | split; [intros [? ?]; try discriminate; reflexivity
                     | intros H; try reflexivity; exfalso; apply H; auto]]).
Qed.

Lemma health_check_status_witness :
  GET_health (world true (Returns (answer (lit "Nice!"))) (Some store_accepting))
  = {| main.status := 200;
       main.content :=
         JObject [ (lit "status", JString (lit "ok"));
                   (lit "database", JString (lit "connected"));
                   (lit "llm", JString (lit "available")) ] |}
  /\ main.status (GET_health (world false (Returns (answer (lit "Nice!")))
                                    (Some store_accepting))) = 503%Z
  /\ main.status (GET_health (world true (Returns (answer (lit "Nice!")))
                                    None)) = 503%Z.
Proof.
  split; [|split].
  - apply (proj1 (proj2 (health_check_status
             (main.services (world true (Returns (answer (lit "Nice!")))
                                   (Some store_accepting)))))).
    split; reflexivity.
  - unfold GET_health.
    rewrite (proj2 (proj2 (health_check_status
             (main.services (world false (Returns (answer (lit "Nice!")))
                                   (Some store_accepting)))))).
    + reflexivity.
    + intros [_ H]. discriminate H.
  - unfold GET_health.
    rewrite (proj2 (proj2 (health_check_status
             (main.services (world true (Returns (answer (lit "Nice!")))
                                   None))))).
    + reflexivity.
    + intros [H _]. discriminate H.
Defined.

(** ** The request pipeline *)

(** [create_reply], case by case on what the generation call did. *)
Lemma create_reply_run (svc : main.Services) (post_data : PostData.t) :
  main.create_reply svc post_data =
  match main.llm_generate_reply svc (PostData.platform post_data)
                                    (PostData.post_text post_data) with
  | (t, Raises e) =>
      (t, Raises (HTTPException HTTP_500_INTERNAL_SERVER_ERROR
                    (main.unexpected_error_prefix ++ str_of_exception e)))
  | (t, Returns None) =>
      (t, Raises (HTTPException HTTP_500_INTERNAL_SERVER_ERROR
                    (main.unexpected_error_prefix
                     ++ str_of_exception
                          (HTTPException HTTP_500_INTERNAL_SERVER_ERROR
                                         main.generation_failed_detail))))
  | (t, Returns (Some reply)) =>
      if main.is_db_connected svc then
        match main.save_reply svc (reply_to_store svc post_data reply) with
        | (t', Returns _) => (t ++ t', Returns (reply_response post_data reply))
        | (t', Raises e) => (t ++ t', Raises e)
        end
      else (t, Returns (reply_response post_data reply))
  end.
Proof.
  unfold main.create_reply, reply_to_store, reply_response.
  destruct (main.llm_generate_reply svc _ _) as [t [[reply|]|e]]; cbn.
  - destruct (main.is_db_connected svc); cbn.
    + destruct (main.save_reply svc _) as [t' [i|e]]; cbn.
      * rewrite !app_nil_r. reflexivity.
      * rewrite !app_nil_r. reflexivity.
    + rewrite !app_nil_r. reflexivity.
  - rewrite !app_nil_r. reflexivity.
  - rewrite !app_nil_r. reflexivity.
Qed.

(** The whole of [POST /reply] over the real clients, case by case. *)
Lemma POST_reply_run (w : World) (body : json) :
  POST_reply w body =
  if genai_configured w then
    match PostData.model_validate body with
    | inl errors => ([], main.render (main.validation_response body errors))
    | inr post_data =>
        let platform := PostData.platform post_data in
        let post_text := PostData.post_text post_data in
        let generation :=
          [ call_generate_reply platform post_text;
            generate_content_async (create_prompt platform post_text)
                                   safety_settings ] in
        match generated w platform post_text with
        | None =>
            (generation,
             main.exception_response
               (HTTPException HTTP_500_INTERNAL_SERVER_ERROR
                  (main.unexpected_error_prefix
                   ++ str_of_exception
                        (HTTPException HTTP_500_INTERNAL_SERVER_ERROR
                                       main.generation_failed_detail))))
        | Some reply =>
            let r := reply_to_store (main.services w) post_data reply in
            (generation
               ++ match reply_collection w with
                  | Some _ => [call_save_reply r; insert_one (document_of r)]
                  | None => []
                  end,
             main.render
               {| main.status := HTTP_200_OK;
                  main.content :=
                    ReplyResponse.to_json (reply_response post_data reply) |})
        end
    end
  else
    ([], main.exception_response
           (HTTPException HTTP_503_SERVICE_UNAVAILABLE
              (lit "LLM service is not configured or unavailable."))).
Proof.
  unfold POST_reply, main.post_reply, main.check_services.
  cbn [main.is_llm_available main.services].
  unfold llm_handler.is_llm_available.
  destruct (genai_configured w) eqn:Hc; [|reflexivity].
  cbn [negb]. cbn [ret Monad_Py].
  destruct (PostData.model_validate body) as [errors|post_data]; [reflexivity|].
  rewrite create_reply_run.
  cbn [main.llm_generate_reply main.save_reply main.is_db_connected
       main.services].
  rewrite generate_reply_run, Hc.
  destruct (generated w _ _) as [reply|]; [|reflexivity].
  unfold is_db_connected. rewrite save_reply_run.
  destruct (reply_collection w); reflexivity.
Qed.

(** The reply depends on the world through the model client only. *)
Lemma generated_ext (w1 w2 : World) (platform post_text : str) :
  genai_configured w1 = genai_configured w2 ->
  (forall p, generate_content_result w1 p = generate_content_result w2 p) ->
  generated w1 platform post_text = generated w2 platform post_text.
Proof. intros Hc Hb. unfold generated. rewrite Hc, Hb. reflexivity. Qed.

Lemma generated_of_result (w : World) (platform post_text : str) r :
  result (generate_reply w platform post_text) = Returns r ->
  generated w platform post_text = r.
Proof. rewrite generate_reply_run. cbn. congruence. Qed.

(** C5. When the model client is unavailable, [POST /reply] on a
    well-formed body answers 503 with the detail of [check_services], and
    the request performs no event at all: [generate_reply] is not entered,
    the backend is not contacted, [save_reply] is not called. *)
Theorem post_reply_unavailable (w : World) (body : json) (post_data : PostData.t) :
  is_llm_available w = false ->
  PostData.model_validate body = inr post_data ->
  POST_reply w body =
  ([], {| main.status := 503;
          main.content :=
            error_body (lit "LLM service is not configured or unavailable.") |}).
Proof.
  unfold is_llm_available. intros Hc _. rewrite POST_reply_run, Hc. reflexivity.
Qed.

Lemma post_reply_unavailable_witness :
  POST_reply (world false (Returns (answer (lit "Nice!"))) (Some store_accepting))
             sample_body =
  ([], {| main.status := 503;
          main.content :=
            error_body (lit "LLM service is not configured or unavailable.") |}).
Proof.
  apply (post_reply_unavailable
           (world false (Returns (answer (lit "Nice!"))) (Some store_accepting))
           sample_body
           {| PostData.platform := twitter; PostData.post_text := sample_post |});
    reflexivity.
Defined.

(** The body of a successful response can be rendered exactly when its
    three texts can be encoded. *)
Lemma reply_body_encodable (post_data : PostData.t) (reply : str) :
  json_encodable (ReplyResponse.to_json (reply_response post_data reply))
  = str_encodable (PostData.platform post_data)
    && str_encodable (PostData.post_text post_data)
    && str_encodable reply.
Proof.
  unfold ReplyResponse.to_json, reply_response.
  cbn [json_encodable forallb ReplyResponse.platform ReplyResponse.post_text
       ReplyResponse.generated_reply].
  replace (str_encodable (lit "platform")) with true by reflexivity.
  replace (str_encodable (lit "post_text")) with true by reflexivity.
  replace (str_encodable (lit "generated_reply")) with true by reflexivity.
  cbn [andb]. rewrite andb_true_r, andb_assoc. reflexivity.
Qed.

(** A valid body whose post text is a lone surrogate, with a backend that
    answers: generation succeeds, and the answer is the plain 500, not
    200. *)
Lemma surrogate_reply_is_500 :
  PostData.model_validate surrogate_body
  = inr {| PostData.platform := twitter; PostData.post_text := lone_surrogate |}
  /\ result (generate_reply (world true (Returns (answer (lit "Nice!"))) None)
                            twitter lone_surrogate)
     = Returns (Some (lit "Nice!"))
  /\ snd (POST_reply (world true (Returns (answer (lit "Nice!"))) None)
                     surrogate_body)
     = {| main.status := 500;
          main.content := JString (lit "Internal Server Error") |}.
Proof. repeat split; reflexivity. Qed.

(** C6, as the code has it. When generation succeeds, the response of
    [POST /reply] is the same in any two runs whose worlds agree on the
    model client, whatever the state of the store and the outcome of the
    insert; it is 200 with the body [{platform, post_text, generated_reply}]
    whenever these three texts can be encoded as UTF-8. *)
Theorem post_reply_independent_of_store
        (w1 w2 : World) (body : json) (post_data : PostData.t) (reply : str) :
  genai_configured w1 = genai_configured w2 ->
  (forall p, generate_content_result w1 p = generate_content_result w2 p) ->
  PostData.model_validate body = inr post_data ->
  result (generate_reply w1 (PostData.platform post_data)
                            (PostData.post_text post_data))
    = Returns (Some reply) ->
  snd (POST_reply w2 body) = snd (POST_reply w1 body)
  /\ (str_encodable (PostData.platform post_data)
       && str_encodable (PostData.post_text post_data)
       && str_encodable reply = true ->
      snd (POST_reply w1 body) =
      {| main.status := 200;
         main.content :=
           JObject [ (lit "platform", JString (PostData.platform post_data));
                     (lit "post_text", JString (PostData.post_text post_data));
                     (lit "generated_reply", JString reply) ] |}).
Proof.
  intros Hc Hb Hv Hg. apply generated_of_result in Hg.
  assert (Hc1 : genai_configured w1 = true).
  { unfold generated in Hg. destruct (genai_configured w1);
      [reflexivity | discriminate Hg]. }
  pose proof (generated_ext w1 w2 (PostData.platform post_data)
                            (PostData.post_text post_data) Hc Hb) as Hg2.
  rewrite Hg in Hg2.
  rewrite !POST_reply_run, <- Hc, Hc1, Hv. cbn zeta.
  rewrite Hg, <- Hg2. cbn [snd]. split; [reflexivity|].
  intros He. unfold main.render. cbn [main.content].
  rewrite reply_body_encodable, He. reflexivity.
Qed.

(** Store disconnected, insert failing and insert succeeding answer alike. *)
Lemma post_reply_independent_of_store_witness :
  snd (POST_reply (world true (Returns (answer (lit "Nice!"))) None)
                  sample_body)
  = {| main.status := 200;
       main.content :=
         JObject [ (lit "platform", JString twitter);
                   (lit "post_text", JString sample_post);
                   (lit "generated_reply", JString (lit "Nice!")) ] |}
  /\ snd (POST_reply (world true (Returns (answer (lit "Nice!")))
                            (Some store_failing)) sample_body)
     = snd (POST_reply (world true (Returns (answer (lit "Nice!"))) None)
                       sample_body)
  /\ snd (POST_reply (world true (Returns (answer (lit "Nice!")))
                            (Some store_accepting)) sample_body)
     = snd (POST_reply (world true (Returns (answer (lit "Nice!"))) None)
                       sample_body).
Proof.
  split; [|split].
  - apply (proj2 (post_reply_independent_of_store
             (world true (Returns (answer (lit "Nice!"))) None)
             (world true (Returns (answer (lit "Nice!"))) (Some store_failing))
             sample_body
             {| PostData.platform := twitter; PostData.post_text := sample_post |}
             (lit "Nice!") eq_refl (fun _ => eq_refl) eq_refl eq_refl)).
    reflexivity.
  - apply (proj1 (post_reply_independent_of_store
             (world true (Returns (answer (lit "Nice!"))) None)
             (world true (Returns (answer (lit "Nice!"))) (Some store_failing))
             sample_body
             {| PostData.platform := twitter; PostData.post_text := sample_post |}
             (lit "Nice!") eq_refl (fun _ => eq_refl) eq_refl eq_refl)).
  - apply (proj1 (post_reply_independent_of_store
             (world true (Returns (answer (lit "Nice!"))) None)
             (world true (Returns (answer (lit "Nice!"))) (Some store_accepting))
             sample_body
             {| PostData.platform := twitter; PostData.post_text := sample_post |}
             (lit "Nice!") eq_refl (fun _ => eq_refl) eq_refl eq_refl)).
Defined.

(** ** What is stored *)

(** C1. The invariant does not hold of the code.  At the request of
    [test_create_reply_success], with a backend whose answer has a content
    part but only white space as its text, [generate_reply] returns the
    empty text rather than [None]; [create_reply] builds a [StoredReply]
    whose [generated_reply] is empty, passes it to [save_reply], which
    inserts it, and answers 200 with an empty [generated_reply]. *)
Theorem empty_reply_is_stored :
  In (call_save_reply
        {| StoredReply.platform := twitter;
           StoredReply.post_text := sample_post;
           StoredReply.generated_reply := [];
           StoredReply.timestamp := 1700000000%Z;
           StoredReply.id := None |})
     (fst (POST_reply (world true (Returns (answer (lit " ")))
                             (Some store_accepting))
                      sample_body))
  /\ In (insert_one
           [ (lit "platform", VStr twitter);
             (lit "post_text", VStr sample_post);
             (lit "generated_reply", VStr []);
             (lit "timestamp", VDatetime 1700000000%Z) ])
        (fst (POST_reply (world true (Returns (answer (lit " ")))
                                (Some store_accepting))
                         sample_body))
  /\ snd (POST_reply (world true (Returns (answer (lit " ")))
                            (Some store_accepting))
                     sample_body)
     = {| main.status := 200;
          main.content :=
            JObject [ (lit "platform", JString twitter);
                      (lit "post_text", JString sample_post);
                      (lit "generated_reply", JString []) ] |}.
Proof. split; [|split]; vm_compute; tauto. Qed.

(** X18. A [StoredReply] reaches [save_reply] only after [generate_reply]
    has returned a text rather than [None]: the service is configured, the
    backend answered with at least one content part and a readable text,
    and the record carries the post-processed form of that text as its
    [generated_reply], next to the request's two fields, the time of its
    creation and no identifier. *)
Theorem stored_reply_carries_generated_reply
        (w : World) (body : json) (r : StoredReply.t) :
  In (call_save_reply r) (fst (POST_reply w body)) ->
  exists post_data response raw,
    PostData.model_validate body = inr post_data
    /\ genai_configured w = true
    /\ generate_content_result
         w (create_prompt (PostData.platform post_data)
                          (PostData.post_text post_data))
       = Returns response
    /\ (exists ps, parts response = Returns ps /\ ps <> [])
    /\ text response = Returns raw
    /\ result (generate_reply w (PostData.platform post_data)
                                (PostData.post_text post_data))
       = Returns (Some (postprocess raw))
    /\ r = {| StoredReply.platform := PostData.platform post_data;
              StoredReply.post_text := PostData.post_text post_data;
              StoredReply.generated_reply := postprocess raw;
              StoredReply.timestamp := utcnow w;
              StoredReply.id := None |}.
Proof.
  rewrite POST_reply_run.
  destruct (genai_configured w) eqn:Hc; [|intros []].
  destruct (PostData.model_validate body) as [errors|post_data]; [intros []|].
  cbn zeta.
  destruct (generated w _ _) as [reply|] eqn:Hg.
  - cbn [fst]. intros Hin. exists post_data.
    assert (Hr : r = reply_to_store (main.services w) post_data reply).
    { destruct (reply_collection w); cbn in Hin.
      - destruct Hin as [H | [H | [H | [H | []]]]]; try discriminate H.
        injection H as <-. reflexivity.
      - destruct Hin as [H | [H | []]]; discriminate H. }
    unfold generated in Hg. rewrite Hc in Hg.
    destruct (generate_content_result w _) as [response|e] eqn:Hb;
      [|discriminate Hg].
    destruct (parts response) as [[|p ps]|e] eqn:Hp; try discriminate Hg.
    destruct (text response) as [raw|e] eqn:Ht; [|discriminate Hg].
    injection Hg as <-. exists response, raw.
    assert (Hne : p :: ps <> []) by discriminate.
    repeat split; try assumption.
    + exists (p :: ps). auto.
    + apply (generate_reply_success w _ _ response (p :: ps) raw Hc Hb Hp Hne Ht).
  - cbn. intros [H | [H | []]]; discriminate H.
Qed.

Lemma stored_reply_carries_generated_reply_witness :
  exists post_data response raw,
    PostData.model_validate sample_body = inr post_data
    /\ genai_configured (world true (Returns (answer (lit "Nice!")))
                               (Some store_accepting)) = true
    /\ generate_content_result
         (world true (Returns (answer (lit "Nice!"))) (Some store_accepting))
         (create_prompt (PostData.platform post_data)
                        (PostData.post_text post_data))
       = Returns response
    /\ (exists ps, parts response = Returns ps /\ ps <> [])
    /\ text response = Returns raw
    /\ result (generate_reply
                 (world true (Returns (answer (lit "Nice!")))
                        (Some store_accepting))
                 (PostData.platform post_data) (PostData.post_text post_data))
       = Returns (Some (postprocess raw))
    /\ sample_record
       = {| StoredReply.platform := PostData.platform post_data;
            StoredReply.post_text := PostData.post_text post_data;
            StoredReply.generated_reply := postprocess raw;
            StoredReply.timestamp :=
              utcnow (world true (Returns (answer (lit "Nice!")))
                            (Some store_accepting));
            StoredReply.id := None |}.
Proof.
  apply (stored_reply_carries_generated_reply
           (world true (Returns (answer (lit "Nice!"))) (Some store_accepting))
           sample_body sample_record).
  vm_compute. tauto.
Defined.

(** ** Generation failures *)

(** C2. The code does not do what the claim says, in two ways.  An empty
    generation result is not surfaced as an error: with a backend that
    answers white space only, the answer is 200 and [save_reply] is called.
    A [None] result does yield 500, but the [HTTPException] of the [None]
    branch is raised inside the [try] and caught by the handler's own
    [except Exception] clause, which wraps it: the detail sent is not the
    text of that branch. *)
Theorem generation_failure_detail_counterexample :
  (main.status
     (snd (POST_reply (world true (Returns (answer (lit " ")))
                             (Some store_accepting)) sample_body)) = 200%Z
   /\ existsb is_persistence_event
        (fst (POST_reply (world true (Returns (answer (lit " ")))
                                (Some store_accepting)) sample_body)) = true)
  /\ (main.status
        (snd (POST_reply (world true (Returns blocked_answer)
                                (Some store_accepting)) sample_body)) = 500%Z
      /\ main.content
           (snd (POST_reply (world true (Returns blocked_answer)
                                   (Some store_accepting)) sample_body))
         <> error_body main.generation_failed_detail).
Proof.
  split; split; try reflexivity.
  vm_compute. intros H. discriminate H.
Qed.

(** The detail actually sent when generation returns [None]. *)
Example generation_none_detail :
  snd (POST_reply (world true (Returns blocked_answer) (Some store_accepting))
                  sample_body)
  = {| main.status := 500;
       main.content :=
         error_body
           (lit "An unexpected error occurred during reply generation: 500: Failed to generate reply using the language model.") |}.
Proof. reflexivity. Qed.

(** The status of a rendered response is its own or 500. *)
Lemma render_status (r : main.Response) :
  main.status (main.render r) = main.status r
  \/ main.status (main.render r) = 500%Z.
Proof. unfold main.render. destruct (json_encodable _); auto. Qed.

Lemma render_status_500 (r : main.Response) :
  main.status r = 500%Z -> main.status (main.render r) = 500%Z.
Proof. intros H. destruct (render_status r) as [E | E]; congruence. Qed.

Lemma str_encodable_app (s1 s2 : str) :
  str_encodable (s1 ++ s2) = str_encodable s1 && str_encodable s2.
Proof. apply forallb_app. Qed.

Lemma error_body_encodable (detail : str) :
  json_encodable (error_body detail) = str_encodable detail.
Proof.
  unfold error_body. cbn [json_encodable forallb].
  replace (str_encodable (lit "detail")) with true by reflexivity.
  cbn [andb]. apply andb_true_r.
Qed.

(** X19. Once the readiness check and validation have passed: when the
    generation call returns [None], [create_reply] raises an
    [HTTPException] with status 500 and the request is answered 500; when
    the generation call raises, [create_reply] raises an [HTTPException]
    with status 500 whose detail is the handler's prefix followed by the
    text of the exception, the request is answered 500, and that detail is
    the body sent whenever it can be encoded.  In both cases the request
    performs nothing beyond what the generation call itself did, so
    [save_reply] is not called. *)
Theorem create_reply_generation_failure
        (svc : main.Services) (body : json) (post_data : PostData.t) :
  main.is_llm_available svc = true ->
  PostData.model_validate body = inr post_data ->
  (result (main.llm_generate_reply svc (PostData.platform post_data)
                                       (PostData.post_text post_data))
     = Returns None ->
   (exists detail,
       main.create_reply svc post_data
       = (trace (main.llm_generate_reply svc (PostData.platform post_data)
                                             (PostData.post_text post_data)),
          Raises (HTTPException 500 detail)))
   /\ fst (main.post_reply svc body)
      = trace (main.llm_generate_reply svc (PostData.platform post_data)
                                           (PostData.post_text post_data))
   /\ main.status (snd (main.post_reply svc body)) = 500%Z)
  /\ (forall e,
      result (main.llm_generate_reply svc (PostData.platform post_data)
                                          (PostData.post_text post_data))
        = Raises e ->
      main.create_reply svc post_data
      = (trace (main.llm_generate_reply svc (PostData.platform post_data)
                                            (PostData.post_text post_data)),
         Raises (HTTPException 500
                   (lit "An unexpected error occurred during reply generation: "
                    ++ str_of_exception e)))
      /\ fst (main.post_reply svc body)
         = trace (main.llm_generate_reply svc (PostData.platform post_data)
                                              (PostData.post_text post_data))
      /\ main.status (snd (main.post_reply svc body)) = 500%Z
      /\ (str_encodable (str_of_exception e) = true ->
          snd (main.post_reply svc body)
          = {| main.status := 500;
               main.content :=
                 error_body
                   (lit "An unexpected error occurred during reply generation: "
                    ++ str_of_exception e) |})).
Proof.
  intros Ha Hv. unfold main.post_reply, main.check_services.
  rewrite Ha, Hv. cbn [negb ret Monad_Py]. rewrite create_reply_run.
  destruct (main.llm_generate_reply svc _ _) as [t o]. unfold result, trace.
  cbn [fst snd]. split.
  - intros ->. cbn [fst snd app]. split; [eexists; reflexivity|].
    split; [reflexivity|]. apply render_status_500. reflexivity.
  - intros e ->. cbn [fst snd app]. split; [reflexivity|].
    split; [reflexivity|]. split; [apply render_status_500; reflexivity|].
    intros He. unfold main.render, main.exception_response.
    cbn [main.content]. change (JObject [(lit "detail", JString ?d)])
      with (error_body d).
    rewrite error_body_encodable.
    change main.unexpected_error_prefix
      with (lit "An unexpected error occurred during reply generation: ").
    rewrite str_encodable_app, He. reflexivity.
Qed.

Lemma create_reply_generation_failure_witness :
  main.status
    (snd (POST_reply (world true (Returns blocked_answer) (Some store_accepting))
                     sample_body)) = 500%Z
  /\ main.post_reply
       (services_raising (Exception (lit "event loop is closed"))
                         (world true (Returns blocked_answer)
                                (Some store_accepting)))
       sample_body
     = ([], {| main.status := 500;
               main.content :=
                 error_body
                   (lit "An unexpected error occurred during reply generation: event loop is closed") |}).
Proof.
  split.
  - destruct (proj1 (create_reply_generation_failure
               (main.services (world true (Returns blocked_answer)
                                     (Some store_accepting)))
               sample_body
               {| PostData.platform := twitter;
                  PostData.post_text := sample_post |}
               eq_refl eq_refl) eq_refl) as [_ [_ E]].
    exact E.
  - destruct (proj2 (create_reply_generation_failure
               (services_raising (Exception (lit "event loop is closed"))
                                 (world true (Returns blocked_answer)
                                        (Some store_accepting)))
               sample_body
               {| PostData.platform := twitter;
                  PostData.post_text := sample_post |}
               eq_refl eq_refl) (Exception (lit "event loop is closed"))
               eq_refl) as [_ [Ht [_ E]]].
    rewrite (surjective_pairing (main.post_reply _ _)), Ht, (E eq_refl).
    reflexivity.
Defined.

(** ** Request validation *)



(** An empty platform name is text like any other: the body is accepted,
    generation runs and the answer is 200. *)
Lemma empty_field_is_accepted :
  PostData.model_validate (request_body (JString []) (JString sample_post))
  = inr {| PostData.platform := []; PostData.post_text := sample_post |}
  /\ main.status
       (snd (POST_reply (world true (Returns (answer (lit "Nice!")))
                               (Some store_accepting))
                        (request_body (JString []) (JString sample_post))))
     = 200%Z
  /\ In (call_generate_reply [] sample_post)
        (fst (POST_reply (world true (Returns (answer (lit "Nice!")))
                                (Some store_accepting))
                         (request_body (JString []) (JString sample_post)))).
Proof. split; [|split]; vm_compute; tauto. Qed.

(** *** When the 422 report can be sent *)











(* ===================================================================== *)
(** * Further properties of the code *)
(* ===================================================================== *)

(** ** More on the built-ins *)

Lemma lstrip_spaces_app (l s : str) :
  forallb isspace l = true -> lstrip (l ++ s) = lstrip s.
Proof.
  induction l as [|c l IH]; simpl; [reflexivity|].
  intros H. apply andb_true_iff in H as [Hc Hl]. rewrite Hc. auto.
Qed.

Lemma rstrip_app_spaces (s r : str) :
  forallb isspace r = true -> rstrip (s ++ r) = rstrip s.
Proof.
  intros H. unfold rstrip. rewrite rev_app_distr, lstrip_spaces_app; auto.
  rewrite forallb_forall in *. intros x Hx. apply H, in_rev, Hx.
Qed.

(** Stripping on the right leaves alone whatever precedes a text that keeps
    at least one character. *)
Lemma rstrip_app_kept (x y : str) :
  rstrip y <> [] -> rstrip (x ++ y) = x ++ rstrip y.
Proof.
  unfold rstrip. intros H. rewrite rev_app_distr.
  destruct (lstrip_split (rev y)) as [l [E F]].
  destruct (lstrip (rev y)) as [|c t] eqn:L; [contradiction H; reflexivity|].
  pose proof (lstrip_head _ _ _ L) as Hc.
  rewrite E at 1. rewrite <- app_assoc, lstrip_spaces_app by exact F.
  change ((c :: t) ++ rev x) with (c :: (t ++ rev x)).
  rewrite (lstrip_nospace_head _ _ Hc).
  change (c :: t ++ rev x) with ((c :: t) ++ rev x).
  rewrite rev_app_distr, rev_involutive. reflexivity.
Qed.

Lemma rstrip_app_kept_nonempty (x y : str) :
  rstrip y <> [] -> rstrip (x ++ y) <> [].
Proof.
  intros H. rewrite (rstrip_app_kept x y H).
  destruct x; [exact H | discriminate].
Qed.

(** A text that neither starts nor ends with white space is left as it is
    by [strip]. *)
Lemma strip_fixed (s : str) :
  (forall c t, s = c :: t -> isspace c = false) ->
  (forall t c, s = t ++ [c] -> isspace c = false) ->
  strip s = s.
Proof.
  intros Hh Hl. destruct s as [|c t]; [reflexivity|].
  pose proof (Hh c t eq_refl) as Hc.
  destruct (exists_last (l := c :: t)) as [u [d E]]; [discriminate|].
  pose proof (Hl u d E) as Hd.
  destruct u as [|c' u].
  - simpl in E. injection E as Ec Et. subst d t.
    unfold strip, rstrip. simpl. rewrite Hc. simpl. rewrite Hc. reflexivity.
  - simpl in E. injection E as <- ->. apply strip_trimmed; assumption.
Qed.

(** A text that starts and ends with [q] is [q] alone or [q], an interior,
    and [q]. *)
Lemma both_ends (s : str) (q : codepoint) :
  startswith s [q] = true -> endswith s [q] = true ->
  s = [q] \/ exists m, s = q :: m ++ [q].
Proof.
  intros Hs He. apply startswith_1 in Hs as [t ->].
  apply endswith_1 in He as [u E].
  destruct u as [|c u].
  - simpl in E. injection E as ->. auto.
  - simpl in E. injection E as <- ->. right. eauto.
Qed.

(** ** Post-processing: what the reply can be *)

(** The three ways [postprocess] ends. *)
Lemma postprocess_cases (raw : str) :
  postprocess raw = strip raw
  \/ (exists q m, (q = dquote \/ q = squote)
                  /\ strip raw = q :: m ++ [q] /\ postprocess raw = m)
  \/ (exists q, (q = dquote \/ q = squote)
                /\ strip raw = [q] /\ postprocess raw = []).
Proof.
  unfold postprocess.
  destruct (startswith (strip raw) [dquote] && endswith (strip raw) [dquote])
    eqn:Hd.
  - apply andb_true_iff in Hd as [Hs He].
    destruct (both_ends _ _ Hs He) as [E | [m E]]; rewrite E.
    + right; right. exists dquote. auto.
    + right; left. exists dquote, m. rewrite slice_interior. auto.
  - destruct (startswith (strip raw) [squote] && endswith (strip raw) [squote])
      eqn:Hq; [|auto].
    apply andb_true_iff in Hq as [Hs He].
    destruct (both_ends _ _ Hs He) as [E | [m E]]; rewrite E.
    + right; right. exists squote. auto.
    + right; left. exists squote, m. rewrite slice_interior. auto.
Qed.

(** X1. Post-processing only removes: the reply is a contiguous piece of
    the backend text, so it is never longer than that text and contains no
    character the backend did not send. *)
Theorem postprocess_is_piece (raw : str) :
  (exists l r, raw = l ++ postprocess raw ++ r)
  /\ List.length (postprocess raw) <= List.length raw.
Proof.
  assert (H : exists l r, raw = l ++ postprocess raw ++ r).
  { destruct (strip_split raw) as [l [r [E _]]].
    destruct (postprocess_cases raw)
      as [-> | [[q [m [_ [Es ->]]]] | [q [_ [Es ->]]]]].
    - eauto.
    - exists (l ++ [q]), ([q] ++ r). rewrite E at 1. rewrite Es.
      simpl. rewrite <- !app_assoc. simpl. reflexivity.
    - exists l, (strip raw ++ r). exact E. }
  split; [exact H|].
  destruct H as [l [r E]]. rewrite E at 2. rewrite !length_app. lia.
Qed.

(** X2. The reply is the empty text in exactly five situations: the backend
    text is blank, or, once trimmed, it is a lone straight quote (double or
    single) or two equal straight quotes with nothing between them. *)
Theorem postprocess_empty_iff (raw : str) :
  postprocess raw = [] <->
  strip raw = []
  \/ strip raw = [dquote] \/ strip raw = [squote]
  \/ strip raw = [dquote; dquote] \/ strip raw = [squote; squote].
Proof.
  split.
  - intros H.
    destruct (postprocess_cases raw)
      as [E | [[q [m [Hq [Es E]]]] | [q [Hq [Es _]]]]].
    + left. congruence.
    + rewrite H in E. subst m. simpl in Es.
      destruct Hq as [-> | ->]; auto.
    + destruct Hq as [-> | ->]; auto.
  - unfold postprocess.
    intros [E | [E | [E | [E | E]]]]; rewrite E; reflexivity.
Qed.

(** X3. A backend text that has no white space at either end and does not
    both start and end with the same straight quote is returned
    unchanged. *)
Theorem postprocess_clean_text (raw : str) :
  (forall c t, raw = c :: t -> isspace c = false) ->
  (forall t c, raw = t ++ [c] -> isspace c = false) ->
  startswith raw [dquote] && endswith raw [dquote] = false ->
  startswith raw [squote] && endswith raw [squote] = false ->
  postprocess raw = raw.
Proof.
  intros Hh Hl Hd Hs. unfold postprocess.
  rewrite (strip_fixed raw Hh Hl), Hd, Hs. reflexivity.
Qed.

Lemma postprocess_clean_text_witness :
  postprocess (lit "Congrats on the launch!") = lit "Congrats on the launch!".
Proof.
  apply (postprocess_clean_text (lit "Congrats on the launch!")).
  - intros c t E. injection E as <- _. reflexivity.
  - intros t c E.
    change (lit "Congrats on the launch!")
      with (lit "Congrats on the launch" ++ [33%N]) in E.
    apply app_inj_tail in E as [_ <-]. reflexivity.
  - reflexivity.
  - reflexivity.
Defined.

(** ** The stored document *)

(** X4. The guard of [save_reply] that deletes a key [id] bound to [None]
    never fires: the dump is taken by alias and without [None] values, so
    for every record the document inserted is the dump itself, it has no
    key [id], and none of its values is [None]. *)
Theorem save_reply_document_is_dump (r : StoredReply.t) :
  document_of r = StoredReply.model_dump true true r
  /\ Dict.contains (document_of r) (lit "id") = false
  /\ (forall k v, In (k, v) (document_of r) -> is_None v = false).
Proof.
  split; [|split].
  - unfold document_of, StoredReply.model_dump.
    destruct (StoredReply.id r); reflexivity.
  - rewrite document_of_eq. destruct (StoredReply.id r); reflexivity.
  - rewrite document_of_eq. intros k v.
    destruct (StoredReply.id r); simpl;
      intros H; repeat (destruct H as [H | H]; [injection H as _ <-; reflexivity|]);
      contradiction.
Qed.

(** X5. Every field of the record can be read back from the document under
    its key, the identifier under [_id] exactly when it is set; so two
    records with the same document are the same record. *)
Theorem document_reads_back (r : StoredReply.t) :
  Dict.get (document_of r) (lit "platform") = Some (VStr (StoredReply.platform r))
  /\ Dict.get (document_of r) (lit "post_text")
     = Some (VStr (StoredReply.post_text r))
  /\ Dict.get (document_of r) (lit "generated_reply")
     = Some (VStr (StoredReply.generated_reply r))
  /\ Dict.get (document_of r) (lit "timestamp")
     = Some (VDatetime (StoredReply.timestamp r))
  /\ Dict.get (document_of r) (lit "_id")
     = option_map VStr (StoredReply.id r)
  /\ (forall r', document_of r' = document_of r -> r' = r).
Proof.
  rewrite document_of_eq.
  repeat (split; [destruct (StoredReply.id r); reflexivity|]).
  intros r'. rewrite document_of_eq.
  destruct r as [p x g ts i], r' as [p' x' g' ts' i']. simpl.
  destruct i, i'; simpl; intros H; try discriminate H;
    injection H; intros; subst; reflexivity.
Qed.

(** ** The request pipeline as a whole *)

Lemma generated_result (w : World) (platform post_text : str) :
  result (generate_reply w platform post_text)
  = Returns (generated w platform post_text).
Proof. rewrite generate_reply_run. reflexivity. Qed.

Ltac refute_case :=
  intros;
  repeat match goal with
         | H : _ /\ _ |- _ => destruct H
         | H : _ \/ _ |- _ => destruct H
         | H : exists _, _ |- _ => destruct H
         end;
  congruence.

(** X6. The status of [POST /reply] is one of 503, 422, 200 and 500, and
    each has its causes: 503 when the model client is not configured; 422
    when it is, the body fails validation and the error report can be
    encoded; 200 when the body is valid, [generate_reply] returns a text
    and the three texts of the answer can be encoded; 500 in the remaining
    cases, that is when the body is valid and [generate_reply] returns
    [None], or when the response that was due cannot be encoded. *)
Theorem post_reply_status_table (w : World) (body : json) :
  (main.status (snd (POST_reply w body)) = 503%Z <->
   is_llm_available w = false)
  /\ (main.status (snd (POST_reply w body)) = 422%Z <->
      is_llm_available w = true
      /\ exists errors,
           PostData.model_validate body = inl errors
           /\ json_encodable
                (main.content (main.validation_response body errors)) = true)
  /\ (main.status (snd (POST_reply w body)) = 200%Z <->
      is_llm_available w = true
      /\ exists post_data reply,
           PostData.model_validate body = inr post_data
           /\ result (generate_reply w (PostData.platform post_data)
                                       (PostData.post_text post_data))
              = Returns (Some reply)
           /\ str_encodable (PostData.platform post_data)
              && str_encodable (PostData.post_text post_data)
              && str_encodable reply = true)
  /\ (main.status (snd (POST_reply w body)) = 500%Z <->
      is_llm_available w = true
      /\ ((exists errors,
              PostData.model_validate body = inl errors
              /\ json_encodable
                   (main.content (main.validation_response body errors))
                 = false)
          \/ (exists post_data,
                 PostData.model_validate body = inr post_data
                 /\ (result (generate_reply w (PostData.platform post_data)
                                              (PostData.post_text post_data))
                     = Returns None
                     \/ exists reply,
                          result (generate_reply w
                                    (PostData.platform post_data)
                                    (PostData.post_text post_data))
                          = Returns (Some reply)
                          /\ str_encodable (PostData.platform post_data)
                             && str_encodable (PostData.post_text post_data)
                             && str_encodable reply = false)))).
Proof.
  rewrite POST_reply_run. unfold is_llm_available.
  destruct (genai_configured w).
  2:{ cbn. split; [split; reflexivity|].
      repeat split; try discriminate; refute_case. }
  destruct (PostData.model_validate body) as [errors|post_data].
  { cbn [snd]. unfold main.render.
    destruct (json_encodable
                (main.content (main.validation_response body errors))) eqn:E;
      cbn [main.status main.validation_response main.internal_server_error];
      unfold HTTP_422_UNPROCESSABLE_ENTITY, HTTP_500_INTERNAL_SERVER_ERROR;
      (split; [split; discriminate|]); (split; [|split]).
    - split; [|reflexivity]. intros _. split; [reflexivity|].
      exists errors. auto.
    - split; [discriminate | refute_case].
    - split; [discriminate | refute_case].
    - split; [discriminate | refute_case].
    - split; [discriminate | refute_case].
    - split; [|reflexivity]. intros _. split; [reflexivity|].
      left. exists errors. auto. }
  cbn zeta.
  pose proof (generated_result w (PostData.platform post_data)
                               (PostData.post_text post_data)) as Hres.
  destruct (generated w _ _) as [reply|] eqn:Hg.
  - cbn [snd]. unfold main.render. cbn [main.content].
    rewrite reply_body_encodable.
    destruct (str_encodable (PostData.platform post_data)
              && str_encodable (PostData.post_text post_data)
              && str_encodable reply) eqn:E;
      cbn [main.status main.internal_server_error];
      unfold HTTP_200_OK, HTTP_500_INTERNAL_SERVER_ERROR;
      (split; [split; discriminate|]); (split; [|split]).
    + split; [discriminate | refute_case].
    + split; [|reflexivity]. intros _. split; [reflexivity|].
      exists post_data, reply. auto.
    + split; [discriminate | refute_case].
    + split; [discriminate | refute_case].
    + split; [discriminate | refute_case].
    + split; [|reflexivity]. intros _. split; [reflexivity|].
      right. exists post_data. split; [reflexivity|]. right.
      exists reply. auto.
  - cbn [snd main.status main.exception_response].
    unfold HTTP_500_INTERNAL_SERVER_ERROR.
    (split; [split; discriminate|]); (split; [|split]).
    + split; [discriminate | refute_case].
    + split; [discriminate | refute_case].
    + split; [|reflexivity]. intros _. split; [reflexivity|].
      right. exists post_data. auto.
Qed.

(** X7. One request does at most one thing of each kind, in one order: its
    events are none at all (the answer is then 503, 422, or 500 when the
    422 report cannot be encoded), or one entry into [generate_reply] with
    one backend call carrying the fixed safety settings (the answer is 500,
    or 200 without a store), or those two followed by one entry into
    [save_reply] and one insert (with a store; the answer is 200, or 500
    when it cannot be encoded).  Nothing is retried, and nothing is
    inserted before generation. *)
Theorem post_reply_events (w : World) (body : json) :
  (fst (POST_reply w body) = []
   /\ (main.status (snd (POST_reply w body)) = 503%Z
       \/ main.status (snd (POST_reply w body)) = 422%Z
       \/ main.status (snd (POST_reply w body)) = 500%Z))
  \/ (exists platform post_text,
         fst (POST_reply w body)
         = [ call_generate_reply platform post_text;
             generate_content_async (create_prompt platform post_text)
               [ (lit "HARM_CATEGORY_HARASSMENT", lit "BLOCK_NONE");
                 (lit "HARM_CATEGORY_HATE_SPEECH", lit "BLOCK_NONE");
                 (lit "HARM_CATEGORY_SEXUALLY_EXPLICIT", lit "BLOCK_NONE");
                 (lit "HARM_CATEGORY_DANGEROUS_CONTENT", lit "BLOCK_NONE") ] ]
         /\ (main.status (snd (POST_reply w body)) = 500%Z
             \/ main.status (snd (POST_reply w body)) = 200%Z
                /\ is_db_connected w = false))
  \/ (exists platform post_text r,
         fst (POST_reply w body)
         = [ call_generate_reply platform post_text;
             generate_content_async (create_prompt platform post_text)
                                    safety_settings;
             call_save_reply r;
             insert_one (document_of r) ]
         /\ (main.status (snd (POST_reply w body)) = 200%Z
             \/ main.status (snd (POST_reply w body)) = 500%Z)
         /\ is_db_connected w = true).
Proof.
  rewrite POST_reply_run. unfold is_db_connected.
  destruct (genai_configured w); [|left; cbn; auto].
  destruct (PostData.model_validate body) as [errors|post_data].
  { left. cbn [fst snd]. split; [reflexivity|].
    destruct (render_status (main.validation_response body errors))
      as [E | E]; rewrite E; auto. }
  cbn zeta. destruct (generated w _ _) as [reply|].
  - cbn [fst snd].
    destruct (render_status
                {| main.status := HTTP_200_OK;
                   main.content :=
                     ReplyResponse.to_json (reply_response post_data reply) |})
      as [E | E]; rewrite E; cbn [main.status]; destruct (reply_collection w).
    + right; right.
      exists (PostData.platform post_data), (PostData.post_text post_data),
             (reply_to_store (main.services w) post_data reply).
      split; [reflexivity|]. split; [left|]; reflexivity.
    + right; left.
      exists (PostData.platform post_data), (PostData.post_text post_data).
      split; [reflexivity|]. right. split; reflexivity.
    + right; right.
      exists (PostData.platform post_data), (PostData.post_text post_data),
             (reply_to_store (main.services w) post_data reply).
      split; [reflexivity|]. split; [right|]; reflexivity.
    + right; left.
      exists (PostData.platform post_data), (PostData.post_text post_data).
      split; [reflexivity|]. left. reflexivity.
  - right; left.
    exists (PostData.platform post_data), (PostData.post_text post_data).
    split; [reflexivity|]. left. reflexivity.
Qed.



(** ** Validation in detail *)

Lemma dict_get_other {V} (k name : str) (v : V) (items : Dict.t V) :
  k <> name -> Dict.get ((k, v) :: items) name = Dict.get items name.
Proof.
  intros H. simpl. destruct (str_eqb k name) eqn:E; [|reflexivity].
  apply str_eqb_eq in E. contradiction.
Qed.

Lemma dict_get_insert {V} (k name : str) (v : V) (before after : Dict.t V) :
  k <> name ->
  Dict.get (before ++ (k, v) :: after) name = Dict.get (before ++ after) name.
Proof.
  intros H. induction before as [|[k' v'] before IH].
  - apply dict_get_other. exact H.
  - simpl. destruct (str_eqb k' name); [reflexivity | exact IH].
Qed.

(** Validation depends on the body through the two lookups only. *)
Lemma model_validate_lookups (items items' : Dict.t json) :
  Dict.get items (lit "platform") = Dict.get items' (lit "platform") ->
  Dict.get items (lit "post_text") = Dict.get items' (lit "post_text") ->
  PostData.model_validate (JObject items)
  = PostData.model_validate (JObject items').
Proof.
  intros H1 H2. unfold PostData.model_validate, PostData.validate_str_field.
  rewrite H1, H2. reflexivity.
Qed.

(** X9. Validation looks at the two declared fields only: an entry under
    any other key, wherever it stands among the items of the body, changes
    nothing, neither the acceptance of the body nor the kinds and
    locations of the errors found. *)
Theorem model_validate_ignores_extra_keys
        (k : str) (v : json) (before after : Dict.t json) :
  k <> lit "platform" -> k <> lit "post_text" ->
  PostData.model_validate (JObject (before ++ (k, v) :: after))
  = PostData.model_validate (JObject (before ++ after)).
Proof.
  intros H1 H2. apply model_validate_lookups; apply dict_get_insert; assumption.
Qed.

Lemma model_validate_ignores_extra_keys_witness :
  PostData.model_validate
    (JObject [ (lit "platform", JString twitter);
               (lit "language", JString (lit "en"));
               (lit "post_text", JString sample_post) ])
  = inr {| PostData.platform := twitter; PostData.post_text := sample_post |}.
Proof.
  change (JObject [ (lit "platform", JString twitter);
                    (lit "language", JString (lit "en"));
                    (lit "post_text", JString sample_post) ])
    with (JObject ([ (lit "platform", JString twitter) ]
                   ++ (lit "language", JString (lit "en"))
                   :: [ (lit "post_text", JString sample_post) ])).
  rewrite (model_validate_ignores_extra_keys
             (lit "language") (JString (lit "en"))
             [ (lit "platform", JString twitter) ]
             [ (lit "post_text", JString sample_post) ]).
  - reflexivity.
  - discriminate.
  - discriminate.
Defined.

(** X10. A body that is an object is rejected as soon as one of the two
    fields is missing or is not text, whatever the other field holds; the
    error list names that field, saying [missing] exactly when the key is
    absent and [string_type] otherwise. *)
Theorem offending_field_is_reported
        (items : Dict.t json) (name : str) (e : ValidationError) :
  name = lit "platform" \/ name = lit "post_text" ->
  PostData.validate_str_field items name = inl e ->
  exists errors,
    PostData.model_validate (JObject items) = inl errors
    /\ In e errors
    /\ loc e = [lit "body"; name]
    /\ (type e = lit "missing" <-> Dict.get items name = None)
    /\ (type e = lit "string_type" <->
        exists v, Dict.get items name = Some v /\ forall s, v <> JString s).
Proof.
  intros Hn He.
  assert (Hshape : loc e = [lit "body"; name]
                   /\ (type e = lit "missing" <-> Dict.get items name = None)
                   /\ (type e = lit "string_type" <->
                       exists v, Dict.get items name = Some v
                                 /\ forall s, v <> JString s)).
  { unfold PostData.validate_str_field in He.
    destruct (Dict.get items name) as [v|].
    - assert (E : e = {| loc := [lit "body"; name]; type := lit "string_type" |}
                  /\ forall s, v <> JString s).
      { destruct v; try discriminate He; injection He as <-;
          (split; [reflexivity | discriminate]). }
      destruct E as [-> Hv]. cbn [loc type]. split; [reflexivity|]. split.
      + split; intros H; discriminate H.
      + split; [intros _; eauto | reflexivity].
    - injection He as <-. cbn [loc type]. split; [reflexivity|]. split.
      + split; reflexivity.
      + split; [intros H; discriminate H | intros [v [H _]]; discriminate H]. }
  unfold PostData.model_validate.
  destruct Hn as [-> | ->]; rewrite He.
  - destruct (PostData.validate_str_field items (lit "post_text"));
      eexists; (split; [reflexivity|]); (split; [left; reflexivity|]);
      exact Hshape.
  - destruct (PostData.validate_str_field items (lit "platform"));
      eexists; (split; [reflexivity|]); (split; [|exact Hshape]);
      [right; left; reflexivity | left; reflexivity].
Qed.

Lemma offending_field_is_reported_witness :
  exists errors,
    PostData.model_validate
      (JObject [ (lit "platform", JNumber 123);
                 (lit "post_text", JString (lit "Some text")) ])
    = inl errors
    /\ In {| loc := [lit "body"; lit "platform"]; type := lit "string_type" |}
          errors.
Proof.
  destruct (offending_field_is_reported
              [ (lit "platform", JNumber 123);
                (lit "post_text", JString (lit "Some text")) ]
              (lit "platform")
              {| loc := [lit "body"; lit "platform"];
                 type := lit "string_type" |}
              (or_introl eq_refl) eq_refl) as [errors [E [I _]]].
  exists errors. split; assumption.
Defined.

(** ** The prompt *)

(** X11. The guidance written into the prompt is specific to the platform
    exactly for the three names [Twitter], [LinkedIn] and [Instagram],
    spelled so; for every other name, whatever its case, the lookup falls
    back to the generic guidance, and so does the name [Generic]. *)
Theorem create_prompt_guidance (platform post_text : str) :
  prompt_guidance (create_prompt platform post_text) <> generic_guidance
  <-> platform = lit "Twitter" \/ platform = lit "LinkedIn"
      \/ platform = lit "Instagram".
Proof.
  unfold create_prompt, Dict.get_default, platform_guidance.
  cbn [prompt_guidance Dict.get].
  destruct (str_eqb (lit "Twitter") platform) eqn:E1.
  { apply str_eqb_eq in E1. split; [auto|]. intros _ H. discriminate H. }
  destruct (str_eqb (lit "LinkedIn") platform) eqn:E2.
  { apply str_eqb_eq in E2. split; [auto|]. intros _ H. discriminate H. }
  destruct (str_eqb (lit "Instagram") platform) eqn:E3.
  { apply str_eqb_eq in E3. split; [auto|]. intros _ H. discriminate H. }
  split.
  - intros H. contradiction H.
    destruct (str_eqb (lit "Generic") platform); reflexivity.
  - intros [-> | [-> | ->]];
      [rewrite str_eqb_refl in E1 | rewrite str_eqb_refl in E2
       | rewrite str_eqb_refl in E3]; discriminate.
Qed.

(** A lower-case platform name gets the generic guidance. *)
Example create_prompt_lowercase :
  prompt_guidance (create_prompt (lit "twitter") sample_post)
  = generic_guidance.
Proof. reflexivity. Qed.

(** [strip] removes white-space margins around a core that starts and ends
    with other characters, and nothing of the core. *)
Lemma strip_margins (l r : str) (c : codepoint) (m : str) (d : codepoint) :
  forallb isspace l = true -> forallb isspace r = true ->
  isspace c = false -> isspace d = false ->
  strip (l ++ (c :: m ++ [d]) ++ r) = c :: m ++ [d].
Proof.
  intros Hl Hr Hc Hd. unfold strip.
  rewrite (lstrip_spaces_app l _ Hl).
  change ((c :: m ++ [d]) ++ r) with (c :: (m ++ [d]) ++ r).
  rewrite (lstrip_nospace_head _ _ Hc).
  change (c :: (m ++ [d]) ++ r) with ((c :: m ++ [d]) ++ r).
  rewrite (rstrip_app_spaces _ r Hr).
  pose proof (strip_trimmed c m d Hc Hd) as H. unfold strip in H.
  rewrite (lstrip_nospace_head _ _ Hc) in H. exact H.
Qed.

Lemma template_shape (mg o a bp b ap bg g c : str) (x y : codepoint) :
  (mg ++ x :: o) ++ a ++ bp ++ b ++ ap ++ a ++ bg ++ g ++ (c ++ y :: mg)
  = mg ++ (x :: (o ++ a ++ bp ++ b ++ ap ++ a ++ bg ++ g ++ c) ++ [y]) ++ mg.
Proof.
  repeat rewrite <- app_assoc. simpl. repeat rewrite <- app_assoc.
  reflexivity.
Qed.

Lemma prompt_opening_shape :
  prompt.prompt_opening
  = prompt.margin ++ 89%N :: skipn 6 prompt.prompt_opening.
Proof. vm_compute. reflexivity. Qed.

Lemma prompt_closing_shape :
  prompt.prompt_closing
  = firstn (List.length prompt.prompt_closing - 6) prompt.prompt_closing
    ++ 42%N :: prompt.margin.
Proof. vm_compute. reflexivity. Qed.

(** X12. The final [strip()] of [create_prompt] removes the template's own
    margins and nothing else: for every platform, post text and guidance,
    blank or not, the template is the returned text between the line break
    and indentation that open it and those that close it.  The returned
    text therefore always begins with [You are an expert] and the values
    supplied by the caller are never trimmed. *)
Theorem prompt_text_keeps_values (platform post_text guidance : str) :
  prompt.template platform post_text guidance
  = prompt.margin
    ++ prompt.text_of {| prompt_platform := platform;
                         prompt_post_text := post_text;
                         prompt_guidance := guidance |}
    ++ prompt.margin
  /\ startswith (prompt.text_of {| prompt_platform := platform;
                                   prompt_post_text := post_text;
                                   prompt_guidance := guidance |})
                (lit "You are an expert") = true.
Proof.
  unfold prompt.text_of. cbn [prompt_platform prompt_post_text prompt_guidance].
  unfold prompt.template.
  rewrite prompt_opening_shape, prompt_closing_shape.
  set (o := skipn 6 prompt.prompt_opening).
  set (c := firstn (List.length prompt.prompt_closing - 6)
                   prompt.prompt_closing).
  rewrite template_shape.
  rewrite strip_margins by reflexivity.
  split; [reflexivity|].
  subst o. vm_compute. reflexivity.
Qed.

(** ** Start-up, shutdown and whole runs *)

(** The handles when nothing is held. *)
Lemma initial_is_empty :
  mongo.initial
  = {| mongo.client := None; mongo.db := None;
       mongo.reply_collection := None |}.
Proof. reflexivity. Qed.

(** [connect_to_mongo], case by case on what the driver does. *)
Lemma connect_to_mongo_run
      (cfg : mongo.Config)
      (AsyncIOMotorClient : str -> outcome mongo.MotorClient)
      (g : mongo.Globals) :
  mongo.connect_to_mongo cfg AsyncIOMotorClient g =
  match mongo.MONGODB_URI cfg with
  | Some (ch :: u) =>
      let uri := ch :: u in
      match AsyncIOMotorClient uri with
      | Raises _ =>
          ([mongo.AsyncIOMotorClient_call uri], mongo.initial, Returns tt)
      | Returns c =>
          match mongo.admin_ping c,
                mongo.get_database c (mongo.DB_NAME cfg) with
          | Returns _, Returns d =>
              match mongo.get_collection d (mongo.COLLECTION_NAME cfg) with
              | Returns collection =>
                  ([mongo.AsyncIOMotorClient_call uri; mongo.ping_command],
                   {| mongo.client := Some c; mongo.db := Some d;
                      mongo.reply_collection := Some collection |},
                   Returns tt)
              | Raises _ =>
                  ([mongo.AsyncIOMotorClient_call uri; mongo.ping_command],
                   mongo.initial, Returns tt)
              end
          | _, _ =>
              ([mongo.AsyncIOMotorClient_call uri; mongo.ping_command],
               mongo.initial, Returns tt)
          end
      end
  | _ =>
      ([], {| mongo.client := mongo.client g; mongo.db := None;
              mongo.reply_collection := None |}, Returns tt)
  end.
Proof.
  unfold mongo.connect_to_mongo.
  destruct (mongo.MONGODB_URI cfg) as [[|ch u]|]; try reflexivity.
  cbn. destruct (AsyncIOMotorClient (ch :: u)) as [c|e]; [|reflexivity].
  cbn. destruct (mongo.admin_ping c) as [[]|e]; [|reflexivity].
  cbn. destruct (mongo.get_database c _) as [d|e]; [|reflexivity].
  cbn. destruct (mongo.get_collection d _) as [collection|e]; reflexivity.
Qed.

(** X13. [connect_to_mongo] never raises and decides the connection state
    by itself, whatever the handles held before: afterwards the collection
    handle is set exactly when the URI is set and not empty, the client is
    created, the ping succeeds, and the configured database and collection
    are obtained; it is then that collection, and the client and database
    handles are set with it.  In every other case the collection and
    database handles are both [None]. *)
Theorem connect_to_mongo_outcome
        (cfg : mongo.Config)
        (AsyncIOMotorClient : str -> outcome mongo.MotorClient)
        (g : mongo.Globals) :
  exists t g',
    mongo.connect_to_mongo cfg AsyncIOMotorClient g = (t, g', Returns tt)
    /\ (forall collection,
           mongo.reply_collection g' = Some collection <->
           exists uri c d,
             mongo.MONGODB_URI cfg = Some uri /\ uri <> []
             /\ AsyncIOMotorClient uri = Returns c
             /\ mongo.admin_ping c = Returns tt
             /\ mongo.get_database c (mongo.DB_NAME cfg) = Returns d
             /\ mongo.get_collection d (mongo.COLLECTION_NAME cfg)
                = Returns collection
             /\ mongo.client g' = Some c /\ mongo.db g' = Some d)
    /\ (mongo.reply_collection g' = None -> mongo.db g' = None).
Proof.
  rewrite connect_to_mongo_run.
  destruct (mongo.MONGODB_URI cfg) as [[|ch u]|] eqn:Hu.
  - do 2 eexists. split; [reflexivity|]. cbn. split; [|reflexivity].
    intros collection. split; [discriminate|].
    intros [uri [c [d [H [Hne _]]]]]. injection H as <-. contradiction.
  - cbn zeta.
    destruct (AsyncIOMotorClient (ch :: u)) as [c|e] eqn:Hc.
    + destruct (mongo.admin_ping c) as [[]|e] eqn:Hp.
      * destruct (mongo.get_database c _) as [d|e] eqn:Hd.
        -- destruct (mongo.get_collection d _) as [col|e] eqn:Hg.
           ++ do 2 eexists. split; [reflexivity|]. cbn.
              split; [|discriminate]. intros collection. split.
              ** intros H. injection H as <-.
                 exists (ch :: u), c, d. repeat split; auto. discriminate.
              ** intros [uri [c' [d' [H1 [_ [H2 [_ [H3 [H4 _]]]]]]]]].
                 injection H1 as <-. rewrite Hc in H2. injection H2 as <-.
                 rewrite Hd in H3. injection H3 as <-.
                 rewrite Hg in H4. injection H4 as <-. reflexivity.
           ++ do 2 eexists. split; [reflexivity|]. cbn.
              split; [|reflexivity]. intros collection.
              split; [discriminate|].
              intros [uri [c' [d' [H1 [_ [H2 [_ [H3 [H4 _]]]]]]]]].
              injection H1 as <-. rewrite Hc in H2. injection H2 as <-.
              rewrite Hd in H3. injection H3 as <-.
              rewrite Hg in H4. discriminate H4.
        -- do 2 eexists. split; [reflexivity|]. cbn.
           split; [|reflexivity]. intros collection. split; [discriminate|].
           intros [uri [c' [d' [H1 [_ [H2 [_ [H3 _]]]]]]]].
           injection H1 as <-. rewrite Hc in H2. injection H2 as <-.
           rewrite Hd in H3. discriminate H3.
      * do 2 eexists. split; [reflexivity|]. cbn.
        split; [|reflexivity]. intros collection. split; [discriminate|].
        intros [uri [c' [d' [H1 [_ [H2 [H3 _]]]]]]].
        injection H1 as <-. rewrite Hc in H2. injection H2 as <-.
        rewrite Hp in H3. discriminate H3.
    + do 2 eexists. split; [reflexivity|]. cbn.
      split; [|reflexivity]. intros collection. split; [discriminate|].
      intros [uri [c' [d' [H1 [_ [H2 _]]]]]].
      injection H1 as <-. rewrite Hc in H2. discriminate H2.
  - do 2 eexists. split; [reflexivity|]. cbn. split; [|reflexivity].
    intros collection. split; [discriminate|].
    intros [uri [c [d [H _]]]]. discriminate H.
Qed.

Lemma connect_to_mongo_outcome_witness :
  mongo.reply_collection
    (snd (fst (mongo.connect_to_mongo (mongo.load_config sample_environ)
                                      (fun _ => Returns client_up)
                                      mongo.initial)))
  = Some store_accepting.
Proof.
  destruct (connect_to_mongo_outcome
              (mongo.load_config sample_environ) (fun _ => Returns client_up)
              mongo.initial) as [t [g' [E [I _]]]].
  rewrite E. cbn [fst snd]. apply I.
  exists (lit "mongodb://localhost:27017"), client_up, sample_database.
  rewrite connect_to_mongo_run in E. injection E as _ <-.
  repeat split; try reflexivity; discriminate.
Defined.

(** [lifespan] once the outcome of the connection attempt is known. *)
Lemma lifespan_run {A} (cfg : mongo.Config)
      (AsyncIOMotorClient : str -> outcome mongo.MotorClient)
      (serve : mongo.Globals -> A) (g : mongo.Globals)
      (t : list mongo.driver_event) (g' : mongo.Globals) :
  mongo.connect_to_mongo cfg AsyncIOMotorClient g = (t, g', Returns tt) ->
  lifespan cfg AsyncIOMotorClient serve g
  = (t ++ match mongo.client g' with
          | Some _ => [mongo.client_close]
          | None => []
          end,
     g', Returns (serve g')).
Proof.
  intros E. unfold lifespan.
  cbv beta iota delta [bind ret mongo.Monad_M mongo.get
                       mongo.close_mongo_connection mongo.emit].
  rewrite E.
  destruct (mongo.client g'); cbn; rewrite ?app_nil_r; reflexivity.
Qed.

(** X14. When the client object is created but the ping fails, the
    exception handler drops the client handle without closing it: over
    the whole life cycle the driver sees the creation and the ping and
    never a close, and the application serves with no handle set. *)
Theorem failed_ping_never_closes {A}
        (cfg : mongo.Config)
        (AsyncIOMotorClient : str -> outcome mongo.MotorClient)
        (serve : mongo.Globals -> A) (g : mongo.Globals)
        (uri : str) (c : mongo.MotorClient) (e : exception) :
  mongo.MONGODB_URI cfg = Some uri -> uri <> [] ->
  AsyncIOMotorClient uri = Returns c ->
  mongo.admin_ping c = Raises e ->
  lifespan cfg AsyncIOMotorClient serve g
  = ([mongo.AsyncIOMotorClient_call uri; mongo.ping_command],
     {| mongo.client := None; mongo.db := None;
        mongo.reply_collection := None |},
     Returns (serve {| mongo.client := None; mongo.db := None;
                       mongo.reply_collection := None |})).
Proof.
  intros Hu Hne Hc Hp.
  rewrite (lifespan_run cfg AsyncIOMotorClient serve g
             [mongo.AsyncIOMotorClient_call uri; mongo.ping_command]
             mongo.initial).
  - reflexivity.
  - rewrite connect_to_mongo_run, Hu.
    destruct uri as [|ch u]; [contradiction Hne; reflexivity|].
    cbn zeta. rewrite Hc, Hp. reflexivity.
Qed.

Lemma failed_ping_never_closes_witness :
  lifespan (mongo.load_config sample_environ)
           (fun _ => Returns client_unreachable)
           mongo.is_db_connected mongo.initial
  = ([mongo.AsyncIOMotorClient_call (lit "mongodb://localhost:27017");
      mongo.ping_command],
     {| mongo.client := None; mongo.db := None;
        mongo.reply_collection := None |},
     Returns false).
Proof.
  apply (failed_ping_never_closes
           (mongo.load_config sample_environ)
           (fun _ => Returns client_unreachable)
           mongo.is_db_connected mongo.initial
           (lit "mongodb://localhost:27017") client_unreachable
           (Exception (lit "server selection timed out"))).
  - reflexivity.
  - discriminate.
  - reflexivity.
  - reflexivity.
Defined.

(** X15. The life cycle with a healthy store: one client is created and
    pinged at start-up, the application serves with the three handles set,
    and shutdown closes the client once.  Shutdown clears no handle:
    [is_db_connected] still answers true afterwards, and closing again
    calls [close] on the same client again. *)
Theorem healthy_life_cycle {A}
        (cfg : mongo.Config)
        (AsyncIOMotorClient : str -> outcome mongo.MotorClient)
        (serve : mongo.Globals -> A) (g : mongo.Globals)
        (uri : str) (c : mongo.MotorClient) (d : mongo.MotorDatabase)
        (collection : Collection) :
  mongo.MONGODB_URI cfg = Some uri -> uri <> [] ->
  AsyncIOMotorClient uri = Returns c ->
  mongo.admin_ping c = Returns tt ->
  mongo.get_database c (mongo.DB_NAME cfg) = Returns d ->
  mongo.get_collection d (mongo.COLLECTION_NAME cfg) = Returns collection ->
  exists g',
    g' = {| mongo.client := Some c; mongo.db := Some d;
            mongo.reply_collection := Some collection |}
    /\ lifespan cfg AsyncIOMotorClient serve g
       = ([mongo.AsyncIOMotorClient_call uri; mongo.ping_command;
           mongo.client_close],
          g', Returns (serve g'))
    /\ mongo.is_db_connected g' = true
    /\ mongo.close_mongo_connection g'
       = ([mongo.client_close], g', Returns tt).
Proof.
  intros Hu Hne Hc Hp Hd Hg. eexists. split; [reflexivity|].
  split; [|split; reflexivity].
  rewrite (lifespan_run cfg AsyncIOMotorClient serve g
             [mongo.AsyncIOMotorClient_call uri; mongo.ping_command]
             {| mongo.client := Some c; mongo.db := Some d;
                mongo.reply_collection := Some collection |}).
  - reflexivity.
  - rewrite connect_to_mongo_run, Hu.
    destruct uri as [|ch u]; [contradiction Hne; reflexivity|].
    cbn zeta. rewrite Hc, Hp, Hd, Hg. reflexivity.
Qed.

Lemma healthy_life_cycle_witness :
  lifespan (mongo.load_config sample_environ) (fun _ => Returns client_up)
           mongo.is_db_connected mongo.initial
  = ([mongo.AsyncIOMotorClient_call (lit "mongodb://localhost:27017");
      mongo.ping_command; mongo.client_close],
     {| mongo.client := Some client_up; mongo.db := Some sample_database;
        mongo.reply_collection := Some store_accepting |},
     Returns true).
Proof.
  destruct (healthy_life_cycle
              (mongo.load_config sample_environ) (fun _ => Returns client_up)
              mongo.is_db_connected mongo.initial
              (lit "mongodb://localhost:27017") client_up sample_database
              store_accepting
              eq_refl ltac:(discriminate) eq_refl eq_refl eq_refl eq_refl)
    as [g' [-> [E _]]].
  exact E.
Defined.

(** Without a collection handle a request performs no persistence event. *)
Lemma no_store_no_persistence (w : World) (body : json) :
  reply_collection w = None ->
  existsb is_persistence_event (fst (POST_reply w body)) = false.
Proof.
  intros H. rewrite POST_reply_run, H.
  destruct (genai_configured w); [|reflexivity].
  destruct (PostData.model_validate body); [reflexivity|].
  cbn zeta. destruct (generated w _ _); reflexivity.
Qed.

(** X16. A run whose environment has no [MONGODB_URI], or an empty one,
    never touches the driver, at start-up or at shutdown, and answers
    every request without a persistence event: [save_reply] is not called
    and nothing is inserted. *)
Theorem run_without_store
        (environ : Dict.t str) (lib : llm_setup.genai)
        (AsyncIOMotorClient : str -> outcome mongo.MotorClient)
        (backend : Prompt -> outcome GenerateContentResponse)
        (now : datetime) (requests : list json) :
  truthy (os.getenv environ (lit "MONGODB_URI")) = false ->
  exists answers,
    run environ lib AsyncIOMotorClient backend now requests
    = ([], mongo.initial, Returns answers)
    /\ List.length answers = List.length requests
    /\ Forall (fun answer =>
                 existsb is_persistence_event (fst answer) = false) answers.
Proof.
  intros Hu. unfold run. eexists. split; [|split].
  - rewrite (lifespan_run _ _ _ mongo.initial [] mongo.initial).
    + reflexivity.
    + rewrite connect_to_mongo_run.
      change (mongo.MONGODB_URI (mongo.load_config environ))
        with (os.getenv environ (lit "MONGODB_URI")).
      destruct (os.getenv environ (lit "MONGODB_URI")) as [[|ch u]|];
        [reflexivity | discriminate Hu | reflexivity].
  - apply length_map.
  - apply Forall_forall. intros answer Hin.
    apply in_map_iff in Hin as [body [<- _]].
    apply no_store_no_persistence. reflexivity.
Qed.

Lemma run_without_store_witness :
  exists answers,
    run [ (lit "GOOGLE_API_KEY", lit "k-123"); (lit "MONGODB_URI", []) ]
        genai_up (fun _ => Returns client_up)
        (fun _ => Returns (answer (lit "Nice!")))
        1700000000%Z [sample_body]
    = ([], mongo.initial, Returns answers)
    /\ List.length answers = 1
    /\ Forall (fun answer =>
                 existsb is_persistence_event (fst answer) = false) answers.
Proof.
  apply (run_without_store
           [ (lit "GOOGLE_API_KEY", lit "k-123"); (lit "MONGODB_URI", []) ]
           genai_up (fun _ => Returns client_up)
           (fun _ => Returns (answer (lit "Nice!")))
           1700000000%Z [sample_body]).
  reflexivity.
Defined.

(** X17. The model client is configured exactly when [GOOGLE_API_KEY] is
    set and not empty and both library calls made at import return.
    Otherwise the run answers every request with the 503 of
    [check_services] and no event, whatever the store does. *)
Theorem run_without_model
        (environ : Dict.t str) (lib : llm_setup.genai)
        (AsyncIOMotorClient : str -> outcome mongo.MotorClient)
        (backend : Prompt -> outcome GenerateContentResponse)
        (now : datetime) (requests : list json) :
  (llm_setup.import_module environ lib = true <->
   exists api_key,
     os.getenv environ (lit "GOOGLE_API_KEY") = Some api_key
     /\ api_key <> []
     /\ llm_setup.configure lib api_key = Returns tt
     /\ llm_setup.GenerativeModel lib (lit "gemini-2.0-flash") = Returns tt)
  /\ (llm_setup.import_module environ lib = false ->
      exists t g,
        run environ lib AsyncIOMotorClient backend now requests
        = (t, g,
           Returns
             (map (fun _ =>
                     ([], {| main.status := 503;
                             main.content :=
                               error_body
                                 (lit "LLM service is not configured or unavailable.") |}))
                  requests))).
Proof.
  split.
  - unfold llm_setup.import_module.
    destruct (os.getenv environ (lit "GOOGLE_API_KEY")) as [[|ch k]|].
    + split; [discriminate|]. intros [key [H [Hne _]]].
      injection H as <-. contradiction.
    + cbn [truthy negb].
      destruct (llm_setup.configure lib (ch :: k)) as [[]|e] eqn:Hc.
      * destruct (llm_setup.GenerativeModel lib _) as [[]|e] eqn:Hm.
        -- split; [|reflexivity]. intros _. exists (ch :: k).
           repeat split; auto. discriminate.
        -- split; [discriminate|]. intros [key [_ [_ [_ H]]]]. discriminate H.
      * split; [discriminate|]. intros [key [H [_ [H' _]]]].
        injection H as <-. rewrite Hc in H'. discriminate H'.
    + split; [discriminate|]. intros [key [H _]]. discriminate H.
  - intros Hoff. unfold run. rewrite Hoff.
    destruct (connect_to_mongo_outcome (mongo.load_config environ)
                AsyncIOMotorClient mongo.initial) as [t [g' [E _]]].
    rewrite (lifespan_run _ _ _ _ t g' E). do 2 eexists.
    apply f_equal2; [reflexivity|]. apply f_equal.
    apply map_ext. intros body. rewrite POST_reply_run. reflexivity.
Qed.

Lemma run_without_model_witness :
  exists t g,
    run [ (lit "GOOGLE_API_KEY", []);
          (lit "MONGODB_URI", lit "mongodb://localhost:27017") ]
        genai_up (fun _ => Returns client_up)
        (fun _ => Returns (answer (lit "Nice!")))
        1700000000%Z [sample_body; sample_body]
    = (t, g,
       Returns
         (map (fun _ =>
                 ([], {| main.status := 503;
                         main.content :=
                           error_body
                             (lit "LLM service is not configured or unavailable.") |}))
              [sample_body; sample_body])).
Proof.
  apply (proj2 (run_without_model
                  [ (lit "GOOGLE_API_KEY", []);
                    (lit "MONGODB_URI", lit "mongodb://localhost:27017") ]
                  genai_up (fun _ => Returns client_up)
                  (fun _ => Returns (answer (lit "Nice!")))
                  1700000000%Z [sample_body; sample_body])).
  reflexivity.
Defined.
